(** * dentistSAAS: calendar scheduler, appointment form and appointments page

    A shallow embedding of the three TypeScript sources

      - src/components/ui/calendar-scheduler.tsx
      - src/components/NewAppointmentForm.tsx
      - src/pages/dashboard/AppointmentsPage.tsx

    Conventions of the embedding.

    - A JavaScript string is the list of its UTF-16 code units
      ([JSString]); [charCodeAt] of a one-unit string is that unit.
    - A [Date] is its time value: milliseconds since the epoch, UTC.
      The platform operations on dates ([toISOString], [setDate],
      [setHours], ...) follow the abstract operations of ECMA-262
      (Day, TimeWithinDay, DayFromYear, YearFromTime, MonthFromTime,
      DateFromTime, WeekDay, MakeDay, MakeTime, MakeDate); the date-fns
      helpers follow the library's implementation on top of them.
Local time is UTC plus a constant offset [LocalTZA] (no daylight saving
rule is modelled); an invalid Date (NaN time value) is not a value
of the model.
    - Event handlers that talk to the API client run in a small monad
with state, an effect log and exceptions. *)

From Stdlib Require Import ZArith List Bool Lia String Ascii Permutation Sorted.
Import ListNotations.
Local Open Scope Z_scope.

(** ** JavaScript strings *)

Definition JSString := list Z.

(** A literal of the source, as code units. *)
Definition js (s : string) : JSString :=
  map (fun a => Z.of_N (N_of_ascii a)) (list_ascii_of_string s).

(** [s.split('').reduce((acc, c) => acc + c.charCodeAt(0), 0)] *)
Definition charCodeSum (s : JSString) : Z :=
  fold_left (fun acc c => acc + c) s 0.

(** [s.split(sep)] for a separator of one code unit. *)
Fixpoint split (sep : Z) (s : JSString) : list JSString :=
  match s with
  | [] => [[]]
  | c :: r =>
      if c =? sep then [] :: split sep r
      else match split sep r with
           | h :: t => (c :: h) :: t
           | [] => [[c]]
           end
  end.

(** ** Time values (ECMA-262, Date objects) *)

Definition Date := Z.

Definition msPerDay : Z := 86400000.
Definition msPerHour : Z := 3600000.
Definition msPerMinute : Z := 60000.
Definition msPerSecond : Z := 1000.

Definition Day (t : Z) : Z := t / msPerDay.
Definition TimeWithinDay (t : Z) : Z := t mod msPerDay.

Definition isLeapYear (y : Z) : bool :=
  if negb (y mod 4 =? 0) then false
  else if negb (y mod 100 =? 0) then true
  else if negb (y mod 400 =? 0) then false
  else true.

Definition DaysInYear (y : Z) : Z := if isLeapYear y then 366 else 365.

Definition DayFromYear (y : Z) : Z :=
  365 * (y - 1970) + (y - 1969) / 4 - (y - 1901) / 100 + (y - 1601) / 400.

(** The largest [y] with [DayFromYear y <= d]: an estimate from the mean
    year length, corrected by at most one year. *)
Definition YearFromDay (d : Z) : Z :=
  let y0 := 1970 + (400 * d) / 146097 in
  if d <? DayFromYear y0 then y0 - 1
  else if DayFromYear (y0 + 1) <=? d then y0 + 1
  else y0.

Definition YearFromTime (t : Z) : Z := YearFromDay (Day t).
Definition InLeapYear (t : Z) : Z := if isLeapYear (YearFromTime t) then 1 else 0.
Definition DayWithinYear (t : Z) : Z := Day t - DayFromYear (YearFromTime t).

(** Day of the year on which month [m] (0 = January) starts. *)
Definition monthStartDay (leap : Z) (m : Z) : Z :=
  if m <=? 0 then 0
  else if m =? 1 then 31
  else if m =? 2 then 59 + leap
  else if m =? 3 then 90 + leap
  else if m =? 4 then 120 + leap
  else if m =? 5 then 151 + leap
  else if m =? 6 then 181 + leap
  else if m =? 7 then 212 + leap
  else if m =? 8 then 243 + leap
  else if m =? 9 then 273 + leap
  else if m =? 10 then 304 + leap
  else 334 + leap.

Definition monthOfYearDay (leap : Z) (dwy : Z) : Z :=
  if dwy <? 31 then 0
  else if dwy <? 59 + leap then 1
  else if dwy <? 90 + leap then 2
  else if dwy <? 120 + leap then 3
  else if dwy <? 151 + leap then 4
  else if dwy <? 181 + leap then 5
  else if dwy <? 212 + leap then 6
  else if dwy <? 243 + leap then 7
  else if dwy <? 273 + leap then 8
  else if dwy <? 304 + leap then 9
  else if dwy <? 334 + leap then 10
  else 11.

Definition MonthFromTime (t : Z) : Z :=
  monthOfYearDay (InLeapYear t) (DayWithinYear t).

Definition DateFromTime (t : Z) : Z :=
  DayWithinYear t - monthStartDay (InLeapYear t) (MonthFromTime t) + 1.

Definition WeekDay (t : Z) : Z := (Day t + 4) mod 7.

Definition HourFromTime (t : Z) : Z := (t / msPerHour) mod 24.
Definition MinFromTime (t : Z) : Z := (t / msPerMinute) mod 60.
Definition SecFromTime (t : Z) : Z := (t / msPerSecond) mod 60.
Definition msFromTime (t : Z) : Z := t mod msPerSecond.

Definition MakeTime (h m s ms : Z) : Z :=
  h * msPerHour + m * msPerMinute + s * msPerSecond + ms.

Definition MakeDay (year month date : Z) : Z :=
  let ym := year + month / 12 in
  let mn := month mod 12 in
  DayFromYear ym + monthStartDay (if isLeapYear ym then 1 else 0) mn + date - 1.

Definition MakeDate (day time : Z) : Z := day * msPerDay + time.

(** ** [Date.prototype.toISOString] *)

(** The last [w] decimal digits of [n], most significant first. *)
Fixpoint padDigits (w : nat) (n : Z) : JSString :=
  match w with
  | O => []
  | S w' => padDigits w' (n / 10) ++ [48 + n mod 10]
  end.

Definition isoYear (y : Z) : JSString :=
  if (0 <=? y) && (y <=? 9999) then padDigits 4 y
  else if y <? 0 then js "-" ++ padDigits 6 (- y)
  else js "+" ++ padDigits 6 y.

(** The day part, [YYYY-MM-DD] (sign and six digits for other years). *)
Definition isoDay (t : Date) : JSString :=
  isoYear (YearFromTime t) ++ js "-" ++ padDigits 2 (MonthFromTime t + 1)
    ++ js "-" ++ padDigits 2 (DateFromTime t).

Definition isoClock (t : Date) : JSString :=
  padDigits 2 (HourFromTime t) ++ js ":" ++ padDigits 2 (MinFromTime t)
    ++ js ":" ++ padDigits 2 (SecFromTime t) ++ js "." ++ padDigits 3 (msFromTime t)
    ++ js "Z".

Definition toISOString (t : Date) : JSString :=
  isoDay t ++ js "T" ++ isoClock t.

(** ** calendar-scheduler.tsx: availability helpers *)

(** [date.toISOString().split('T')[0]] *)
Definition dateStr (date : Date) : JSString :=
  nth 0 (split 84 (toISOString date)) [].

Definition getDateAvailability (date : Date) : bool :=
  let hash := charCodeSum (dateStr date) in
  negb (Z.rem hash 5 =? 0).

Definition getTimeSlotAvailability (date : Date) (time : JSString) : bool :=
  if negb (getDateAvailability date) then false
  else
    let combined := dateStr date ++ js "-" ++ time in
    let hash := charCodeSum combined in
    Z.rem hash 2 =? 0.

Definition hasAvailableSlots (date : Date) (slots : list JSString) : bool :=
  existsb (fun slot => getTimeSlotAvailability date slot) slots.

(** ** Local time, Date setters and the date-fns helpers *)

Definition arrayInit {A : Type} (n : Z) (f : Z -> A) : option (list A) :=
  (* [Array(n).fill(null).map((_, i) => f i)]; [Array(n)] throws a
     RangeError for a negative length. *)
  if n <? 0 then None
  else Some (map (fun i => f (Z.of_nat i)) (seq 0 (Z.to_nat n))).

Section LocalTime.

(** Offset of local time from UTC, in milliseconds. *)
Variable LocalTZA : Z.

Definition LocalTime (t : Z) : Z := t + LocalTZA.
Definition UTC (t : Z) : Z := t - LocalTZA.

Definition getFullYear (d : Date) : Z := YearFromTime (LocalTime d).
Definition getMonth (d : Date) : Z := MonthFromTime (LocalTime d).
Definition getDate (d : Date) : Z := DateFromTime (LocalTime d).
Definition getDay (d : Date) : Z := WeekDay (LocalTime d).

Definition setDate (d : Date) (dt : Z) : Date :=
  let t := LocalTime d in
  UTC (MakeDate (MakeDay (YearFromTime t) (MonthFromTime t) dt) (TimeWithinDay t)).

Definition setHours (d : Date) (h m s ms : Z) : Date :=
  let t := LocalTime d in
  UTC (MakeDate (Day t) (MakeTime h m s ms)).

Definition setFullYear (d : Date) (y m dt : Z) : Date :=
  let t := LocalTime d in
  UTC (MakeDate (MakeDay y m dt) (TimeWithinDay t)).

(** date-fns *)

Definition startOfDay (d : Date) : Date := setHours d 0 0 0 0.

Definition startOfMonth (d : Date) : Date := setHours (setDate d 1) 0 0 0 0.

Definition endOfMonth (d : Date) : Date :=
  let month := getMonth d in
  setHours (setFullYear d (getFullYear d) (month + 1) 0) 23 59 59 999.

Definition addDays (d : Date) (amount : Z) : Date :=
  if amount =? 0 then d else setDate d (getDate d + amount).

Definition isSameDay (a b : Date) : bool := startOfDay a =? startOfDay b.
Definition isBefore (a b : Date) : bool := a <? b.

(** The [while (+date <= endTime)] loop of [eachDayOfInterval]; [None]
    when the iteration budget is used up before the loop exits. *)
Fixpoint eachDayLoop (fuel : nat) (date endTime : Z) : option (list Date) :=
  if date <=? endTime then
    match fuel with
    | O => None
    | S fuel' =>
        option_map (cons date)
          (eachDayLoop fuel' (setHours (setDate date (getDate date + 1)) 0 0 0 0) endTime)
    end
  else Some [].

Definition eachDayOfInterval (start end_ : Date) : option (list Date) :=
  let reversed := end_ <? start in
  let endTime := if reversed then start else end_ in
  let date := setHours (if reversed then end_ else start) 0 0 0 0 in
  let fuel := Z.to_nat ((endTime - date) / msPerDay + 1) in
  option_map (fun dates => if reversed then rev dates else dates)
    (eachDayLoop fuel date endTime).

(** ** calendar-scheduler.tsx: the component *)

Definition defaultTimeSlots : list JSString :=
  [js "08:00"; js "09:00"; js "10:00"; js "11:00"; js "13:00";
   js "14:00"; js "15:00"; js "16:00"; js "17:00"].

Record CalendarSchedulerProps := {
  timeSlots : option (list JSString);
  onConfirm : bool;        (* is the callback supplied? *)
  onDateChange : bool;     (* is the callback supplied? *)
  disabledDates : option (Date -> bool)
}.

(** Calls made on the callbacks of the props. *)
Inductive Callback :=
| CallOnDateChange (date : option Date)
| CallOnConfirm (date : option Date) (time : option JSString).

Record SchedulerState := {
  currentMonth : Date;
  selectedDate : option Date;
  selectedTime : option JSString
}.

(** [new Date()] is read once for each of the two [useState] calls. *)
Definition initialState (now1 now2 : Date) : SchedulerState :=
  {| currentMonth := now1; selectedDate := Some now2; selectedTime := None |}.

Definition slotsToUse (p : CalendarSchedulerProps) : list JSString :=
  (* the default of the parameter applies when the prop is undefined *)
  let slots := match timeSlots p with Some l => l | None => defaultTimeSlots end in
  if 0 <? Z.of_nat (List.length slots) then slots else defaultTimeSlots.

(** [disabledDates?.(date)], as a condition. *)
Definition isExternallyDisabled (p : CalendarSchedulerProps) (date : Date) : bool :=
  match disabledDates p with Some f => f date | None => false end.

Definition handleDateSelect (p : CalendarSchedulerProps) (st : SchedulerState)
    (date : Date) : SchedulerState * list Callback :=
  if isExternallyDisabled p date then (st, [])
  else if negb (hasAvailableSlots date (slotsToUse p)) then (st, [])
  else
    ({| currentMonth := currentMonth st;
        selectedDate := Some date;
        selectedTime := None |},
     if onDateChange p then [CallOnDateChange (Some date)] else []).

Definition handlePrevMonth (st : SchedulerState) : SchedulerState :=
  {| currentMonth := addDays (currentMonth st) (-32);
     selectedDate := selectedDate st;
     selectedTime := selectedTime st |}.

Definition handleNextMonth (st : SchedulerState) : SchedulerState :=
  {| currentMonth := addDays (currentMonth st) 32;
     selectedDate := selectedDate st;
     selectedTime := selectedTime st |}.

Definition monthStart (st : SchedulerState) : Date := startOfMonth (currentMonth st).
Definition monthEnd (st : SchedulerState) : Date := endOfMonth (currentMonth st).

(** [None] stands for an exception ([Array] of a negative length) or a
    day loop that did not finish. *)
Definition gridDays (st : SchedulerState) : option (list Date) :=
  match eachDayOfInterval (monthStart st) (monthEnd st) with
  | None => None
  | Some calendarDays =>
      let firstDayOfWeek := getDay (monthStart st) in
      match arrayInit firstDayOfWeek
              (fun i => addDays (monthStart st) (- (firstDayOfWeek - i))) with
      | None => None
      | Some prevMonthDays =>
          let allDays := prevMonthDays ++ calendarDays in
          let remainingDays := 42 - Z.of_nat (List.length allDays) in
          match arrayInit remainingDays (fun i => addDays (monthEnd st) (i + 1)) with
          | None => None
          | Some nextMonthDays => Some (allDays ++ nextMonthDays)
          end
      end
  end.

(** What the user can do with the rendered component.  [now] is the
    value of [new Date()] read by the render or by the handler. *)
Inductive UserEvent :=
| ClickDay (now : Date) (index : nat)
| ClickSlot (slot : JSString)
| ClickPrevMonth
| ClickNextMonth
| ClickReset (now : Date)
| ClickConfirm.

(** [today]: [new Date()] with [setHours(0, 0, 0, 0)]. *)
Definition today (now : Date) : Date := setHours now 0 0 0 0.

(** The [disabled] attribute of the grid button of [day]. *)
Definition dayButtonDisabled (p : CalendarSchedulerProps) (st : SchedulerState)
    (now : Date) (day : Date) : bool :=
  let isCurrentMonth := getMonth day =? getMonth (currentMonth st) in
  let isPastDate := isBefore day (today now) in
  let isExternallyDisabled := isExternallyDisabled p day in
  let dayHasAvailableSlots :=
    isCurrentMonth && negb isPastDate && negb isExternallyDisabled
      && hasAvailableSlots day (slotsToUse p) in
  negb dayHasAvailableSlots || isExternallyDisabled || isPastDate.

(** JavaScript truthiness of [string | undefined]. *)
Definition truthyString (s : option JSString) : bool :=
  match s with Some (_ :: _) => true | _ => false end.

Definition truthyDate (d : option Date) : bool :=
  match d with Some _ => true | None => false end.

Definition confirmDisabled (st : SchedulerState) : bool :=
  negb (truthyDate (selectedDate st)) || negb (truthyString (selectedTime st)).

(** One user event: a click on a disabled button runs no handler. *)
Definition step (p : CalendarSchedulerProps) (st : SchedulerState)
    (e : UserEvent) : SchedulerState * list Callback :=
  match e with
  | ClickDay now index =>
      match gridDays st with
      | Some days =>
          match nth_error days index with
          | Some day =>
              if dayButtonDisabled p st now day then (st, [])
              else handleDateSelect p st day
          | None => (st, [])
          end
      | None => (st, [])
      end
  | ClickSlot slot =>
      match selectedDate st with
      | Some date =>
          if existsb (fun s => if list_eq_dec Z.eq_dec s slot then true else false)
               (slotsToUse p)
          then
            let isAvailable := getTimeSlotAvailability date slot in
            if isAvailable
            then ({| currentMonth := currentMonth st;
                     selectedDate := selectedDate st;
                     selectedTime := Some slot |}, [])
            else (st, [])
          else (st, [])
      | None => (st, [])
      end
  | ClickPrevMonth => (handlePrevMonth st, [])
  | ClickNextMonth => (handleNextMonth st, [])
  | ClickReset now =>
      ({| currentMonth := now; selectedDate := None; selectedTime := None |}, [])
  | ClickConfirm =>
      if confirmDisabled st then (st, [])
      else (st, if onConfirm p
                then [CallOnConfirm (selectedDate st) (selectedTime st)]
                else [])
  end.

(** A session: the events in order, the calls on the props collected. *)
Fixpoint run (p : CalendarSchedulerProps) (st : SchedulerState)
    (es : list UserEvent) : SchedulerState * list Callback :=
  match es with
  | [] => (st, [])
  | e :: es' =>
      let '(st1, out1) := step p st e in
      let '(st2, out2) := run p st1 es' in
      (st2, out1 ++ out2)
  end.

End LocalTime.

(** ** Display records (the fields the three sources read) *)

Record Service := { service_id : JSString; service_name : JSString }.

Record Dentist := { dentist_id : JSString; dentist_services : list Service }.

Record Patient := {
  patient_id : JSString;
  patient_name : JSString;
  patient_phone : JSString;
  patient_email : option JSString
}.

Record Appointment := {
  apt_id : JSString;
  apt_dentistId : JSString;
  apt_patientId : JSString;
  apt_serviceId : JSString;
  apt_date : Date;
  apt_time : JSString;
  apt_status : JSString;
  apt_notes : option JSString
}.

(** [{ ...apt, status: newStatus }] *)
Definition withStatus (apt : Appointment) (newStatus : JSString) : Appointment :=
  {| apt_id := apt_id apt;
     apt_dentistId := apt_dentistId apt;
     apt_patientId := apt_patientId apt;
     apt_serviceId := apt_serviceId apt;
     apt_date := apt_date apt;
     apt_time := apt_time apt;
     apt_status := newStatus;
     apt_notes := apt_notes apt |}.

Definition strEq (a b : JSString) : bool :=
  if list_eq_dec Z.eq_dec a b then true else false.

(** JavaScript truthiness of a string: the empty string is falsy. *)
Definition truthy (s : JSString) : bool :=
  match s with [] => false | _ :: _ => true end.

(** [s || undefined] *)
Definition orUndefined (s : JSString) : option JSString :=
  if truthy s then Some s else None.

(** ** Handlers with effects *)

(** A value thrown by the API client (a rejected promise). *)
Definition JSError := JSString.

Inductive ApiResult (A : Type) :=
| Resolved (a : A)
| Rejected (e : JSError).
Arguments Resolved {A} a.
Arguments Rejected {A} e.

Definition isResolved {A : Type} (p : ApiResult A) : bool :=
  match p with Resolved _ => true | Rejected _ => false end.

(** The operations of the API client that the sources call. *)
Inductive ApiRequest :=
| GetDentist (dentistId : JSString)
| GetAvailableSlots (dentistId : JSString) (date : Date)
| GetPatients (dentistId : JSString)
| CreatePatient (dentistId name phone : JSString) (email : option JSString)
| CreateAppointment (apt : Appointment)
| GetAppointments (dentistId : JSString)
| UpdateAppointment (id status dentistId : JSString).

(** The texts of the notifications. *)
Inductive ToastMessage :=
| MsgRequiredFields       (* 'Veuillez remplir tous les champs obligatoires' *)
| MsgPatientCreation      (* 'Erreur lors de la creation du patient' *)
| MsgAppointmentCreated   (* 'Rendez-vous cree avec succes' *)
| MsgAppointmentCreation  (* 'Erreur lors de la creation du rendez-vous' *)
| MsgLoadAppointments     (* 'Erreur lors du chargement des rendez-vous' *)
| MsgStatusUpdated        (* 'Statut mis a jour' *)
| MsgStatusUpdate.        (* 'Erreur lors de la mise a jour' *)

(** What a handler does to the outside, in order. *)
Inductive Effect :=
| ToastError (m : ToastMessage)
| ToastSuccess (m : ToastMessage)
| ConsoleError
| PreventDefault
| CallOnSuccess
| Api (r : ApiRequest) (resolved : bool).   (* a request and how it settled *)

Definition isToast (e : Effect) : bool :=
  match e with ToastError _ | ToastSuccess _ => true | _ => false end.

Definition isApi (e : Effect) : bool :=
  match e with Api _ _ => true | _ => false end.

Inductive Completion (A : Type) :=
| Normal (a : A)
| Throw (e : JSError).
Arguments Normal {A} a.
Arguments Throw {A} e.

Section Handlers.

(** The remote service behind the API client: an arbitrary state
    machine, one transition per operation. *)
Variable Server : Type.

Record ApiClient := {
  api_getDentist : JSString -> Server -> ApiResult Dentist * Server;
  api_getAvailableSlots :
    JSString -> Date -> Server -> ApiResult (option (list JSString)) * Server;
  api_getPatients : JSString -> Server -> ApiResult (list Patient) * Server;
  api_createPatient :
    JSString -> JSString -> JSString -> option JSString -> Server ->
    ApiResult (option Patient) * Server;
  api_createAppointment : Appointment -> Server -> ApiResult unit * Server;
  api_getAppointments : JSString -> Server -> ApiResult (list Appointment) * Server;
  api_updateAppointment :
    JSString -> JSString -> JSString -> Server -> ApiResult unit * Server
}.

Variable api : ApiClient.

(** The world a handler of a component with state [S] runs in. *)
Record World (S : Type) := {
  ui : S;
  server : Server;
  log : list Effect
}.
Arguments ui {S} w.
Arguments server {S} w.
Arguments log {S} w.

Definition M (S A : Type) : Type := World S -> Completion A * World S.

Definition ret {S A} (a : A) : M S A := fun w => (Normal a, w).

Definition bind {S A B} (c : M S A) (k : A -> M S B) : M S B :=
  fun w => match c w with
           | (Normal a, w') => k a w'
           | (Throw e, w') => (Throw e, w')
           end.

Definition tryCatch {S A} (body : M S A) (handler : JSError -> M S A) : M S A :=
  fun w => match body w with
           | (Normal a, w') => (Normal a, w')
           | (Throw e, w') => handler e w'
           end.

Definition tryFinally {S A} (body : M S A) (finalizer : M S unit) : M S A :=
  fun w => match body w with
           | (r, w') =>
               match finalizer w' with
               | (Normal _, w'') => (r, w'')
               | (Throw e, w'') => (Throw e, w'')
               end
           end.

Definition getState {S} : M S S := fun w => (Normal (ui w), w).

Definition setState {S} (f : S -> S) : M S unit :=
  fun w => (Normal tt, {| ui := f (ui w); server := server w; log := log w |}).

Definition emit {S} (e : Effect) : M S unit :=
  fun w => (Normal tt, {| ui := ui w; server := server w; log := log w ++ [e] |}).

(** Calling an operation of the client issues the request and returns
    a promise, already settled in the model. *)
Definition request {S A} (r : ApiRequest)
    (op : Server -> ApiResult A * Server) : M S (ApiResult A) :=
  fun w => let '(res, srv) := op (server w) in
           (Normal res,
            {| ui := ui w; server := srv; log := log w ++ [Api r (isResolved res)] |}).

Definition await {S A} (p : ApiResult A) : M S A :=
  fun w => match p with
           | Resolved a => (Normal a, w)
           | Rejected e => (Throw e, w)
           end.

(** [Promise.all([p1, p2])] *)
Definition promiseAll2 {A B} (p1 : ApiResult A) (p2 : ApiResult B) : ApiResult (A * B) :=
  match p1, p2 with
  | Resolved a, Resolved b => Resolved (a, b)
  | Rejected e, _ => Rejected e
  | Resolved _, Rejected e => Rejected e
  end.

End Handlers.

Arguments ui {Server S} w.
Arguments server {Server S} w.
Arguments log {Server S} w.
Arguments ret {Server S A} a w.
Arguments bind {Server S A B} c k w.
Arguments tryCatch {Server S A} body handler w.
Arguments tryFinally {Server S A} body finalizer w.
Arguments getState {Server S} w.
Arguments setState {Server S} f w.
Arguments emit {Server S} e w.
Arguments request {Server S A} r op w.
Arguments await {Server S A} p w.

Declare Scope handler_scope.
Delimit Scope handler_scope with handler.
Notation "x <- c ;; k" := (bind c (fun x => k))
  (at level 61, c at next level, right associativity) : handler_scope.
Notation "c ;; k" := (bind c (fun _ => k))
  (at level 61, right associativity) : handler_scope.

(** ** NewAppointmentForm.tsx *)

Module NewAppointmentForm.
Section Form.

Variable Server : Type.
Variable api : ApiClient Server.
Local Open Scope handler_scope.

(** Props: [dentistId]; [onSuccess] is logged as [CallOnSuccess]. *)
Variable dentistId : JSString.

Record FormState := {
  dentist : option Dentist;
  date : option Date;
  time : JSString;
  serviceId : JSString;
  patientName : JSString;
  patientPhone : JSString;
  patientEmail : JSString;
  notes : JSString;
  availableSlots : list JSString;
  isLoading : bool
}.

Definition initialForm (now : Date) : FormState :=
  {| dentist := None; date := Some now; time := []; serviceId := [];
     patientName := []; patientPhone := []; patientEmail := []; notes := [];
     availableSlots := []; isLoading := false |}.

Definition setDentist (d : Dentist) (s : FormState) : FormState :=
  {| dentist := Some d; date := date s; time := time s; serviceId := serviceId s;
     patientName := patientName s; patientPhone := patientPhone s;
     patientEmail := patientEmail s; notes := notes s;
     availableSlots := availableSlots s; isLoading := isLoading s |}.

Definition setTime (t : JSString) (s : FormState) : FormState :=
  {| dentist := dentist s; date := date s; time := t; serviceId := serviceId s;
     patientName := patientName s; patientPhone := patientPhone s;
     patientEmail := patientEmail s; notes := notes s;
     availableSlots := availableSlots s; isLoading := isLoading s |}.

Definition setAvailableSlots (l : list JSString) (s : FormState) : FormState :=
  {| dentist := dentist s; date := date s; time := time s; serviceId := serviceId s;
     patientName := patientName s; patientPhone := patientPhone s;
     patientEmail := patientEmail s; notes := notes s;
     availableSlots := l; isLoading := isLoading s |}.

Definition setIsLoading (b : bool) (s : FormState) : FormState :=
  {| dentist := dentist s; date := date s; time := time s; serviceId := serviceId s;
     patientName := patientName s; patientPhone := patientPhone s;
     patientEmail := patientEmail s; notes := notes s;
     availableSlots := availableSlots s; isLoading := b |}.

(** The effect on [dentistId]: [load()]. *)
Definition loadDentist : M Server FormState unit :=
  tryCatch
    (p <- request (GetDentist dentistId) (api_getDentist Server api dentistId) ;;
     d <- await p ;;
     setState (setDentist d))
    (fun _ => (* ignore *) ret tt).

Definition loadAvailableSlots : M Server FormState unit :=
  s <- getState ;;
  match date s, dentist s with
  | Some date, Some dentist =>
      tryCatch
        (p <- request (GetAvailableSlots (dentist_id dentist) date)
                (api_getAvailableSlots Server api (dentist_id dentist) date) ;;
         slots <- await p ;;
         setState (setAvailableSlots (match slots with Some l => l | None => [] end)) ;;
         setState (setTime []))
        (fun _ =>
           emit ConsoleError ;;
           setState (setAvailableSlots []))
  | _, _ => ret tt
  end.

(** The presence check of [handleSubmit]. *)
Definition missingField (s : FormState) : bool :=
  negb (truthyDate (date s)) || negb (truthy (time s)) || negb (truthy (serviceId s))
    || negb (truthy (patientName s)) || negb (truthy (patientPhone s)).

Definition newAppointment (s : FormState) (d : Date) (patient : Patient) : Appointment :=
  {| apt_id := [];
     apt_dentistId := dentistId;
     apt_patientId := patient_id patient;
     apt_serviceId := serviceId s;
     apt_date := d;
     apt_time := time s;
     apt_status := js "scheduled";
     apt_notes := orUndefined (notes s) |}.

(** [e] tells whether the handler was given an event. *)
Definition handleSubmit (e : bool) : M Server FormState unit :=
  (if e then emit PreventDefault else ret tt) ;;
  s <- getState ;;
  match date s with
  | Some d =>
    if missingField s then emit (ToastError MsgRequiredFields)
    else
      setState (setIsLoading true) ;;
      tryFinally
        (tryCatch
           (p <- request (GetPatients dentistId) (api_getPatients Server api dentistId) ;;
            patients <- await p ;;
            found <- match find (fun p => strEq (patient_phone p) (patientPhone s)) patients with
                     | Some p => ret (Some p)
                     | None =>
                         q <- request
                                (CreatePatient dentistId (patientName s) (patientPhone s)
                                   (orUndefined (patientEmail s)))
                                (api_createPatient Server api dentistId (patientName s)
                                   (patientPhone s) (orUndefined (patientEmail s))) ;;
                         await q
                     end ;;
            match found with
            | None =>
                emit (ToastError MsgPatientCreation) ;;
                setState (setIsLoading false)
            | Some patient =>
                r <- request (CreateAppointment (newAppointment s d patient))
                       (api_createAppointment Server api (newAppointment s d patient)) ;;
                await r ;;
                emit (ToastSuccess MsgAppointmentCreated) ;;
                emit CallOnSuccess
            end)
           (fun _ =>
              emit ConsoleError ;;
              emit (ToastError MsgAppointmentCreation)))
        (setState (setIsLoading false))
  | None => emit (ToastError MsgRequiredFields)
  end.

End Form.
End NewAppointmentForm.

(** ** AppointmentsPage.tsx *)

Module AppointmentsPage.

Inductive FilterType := FilterAll | FilterToday | FilterUpcoming | FilterPast.

Record PageState := {
  appointments : list Appointment;
  patients : list Patient;
  filteredAppointments : list Appointment;
  filter : FilterType;
  isLoading : bool
}.

Definition setAppointments (f : list Appointment -> list Appointment)
    (s : PageState) : PageState :=
  {| appointments := f (appointments s); patients := patients s;
     filteredAppointments := filteredAppointments s; filter := filter s;
     isLoading := isLoading s |}.

Definition setPatients (l : list Patient) (s : PageState) : PageState :=
  {| appointments := appointments s; patients := l;
     filteredAppointments := filteredAppointments s; filter := filter s;
     isLoading := isLoading s |}.

Definition setFilteredAppointments (f : list Appointment -> list Appointment)
    (s : PageState) : PageState :=
  {| appointments := appointments s; patients := patients s;
     filteredAppointments := f (filteredAppointments s); filter := filter s;
     isLoading := isLoading s |}.

Definition setIsLoading (b : bool) (s : PageState) : PageState :=
  {| appointments := appointments s; patients := patients s;
     filteredAppointments := filteredAppointments s; filter := filter s;
     isLoading := b |}.

(** *** applyFilter *)

(** [Array.prototype.sort] is a stable sort; with a consistent
    comparator every stable sort returns the same array.  It is
    modelled by stable insertion. *)
Fixpoint insertSorted {A} (cmp : A -> A -> Z) (x : A) (l : list A) : list A :=
  match l with
  | [] => [x]
  | y :: r => if cmp x y <=? 0 then x :: y :: r else y :: insertSorted cmp x r
  end.

Fixpoint sort {A} (cmp : A -> A -> Z) (l : list A) : list A :=
  match l with
  | [] => []
  | x :: r => insertSorted cmp x (sort cmp r)
  end.

Section Filter.

Variable LocalTZA : Z.
(** [String.prototype.localeCompare] of the platform. *)
Variable localeCompare : JSString -> JSString -> Z.
(** [Date.now()], taken as constant during one call. *)
Variable now : Date.

Definition isToday (d : Date) : bool := isSameDay LocalTZA d now.
Definition isFuture (d : Date) : bool := now <? d.
Definition isPast (d : Date) : bool := d <? now.

Definition keeps (f : FilterType) (apt : Appointment) : bool :=
  match f with
  | FilterToday => isToday (apt_date apt)
  | FilterUpcoming => isFuture (apt_date apt)
  | FilterPast => isPast (apt_date apt)
  | FilterAll => true
  end.

(** The comparator handed to [sort]. *)
Definition compareAppointments (a b : Appointment) : Z :=
  let dateA := apt_date a in
  let dateB := apt_date b in
  if negb (dateA =? dateB) then dateA - dateB
  else localeCompare (apt_time a) (apt_time b).

(** The list that [applyFilter] hands to [setFilteredAppointments]. *)
Definition applyFilter (s : PageState) : list Appointment :=
  let filtered := appointments s in
  let filtered :=
    match filter s with
    | FilterToday => List.filter (fun apt => isToday (apt_date apt)) filtered
    | FilterUpcoming => List.filter (fun apt => isFuture (apt_date apt)) filtered
    | FilterPast => List.filter (fun apt => isPast (apt_date apt)) filtered
    | FilterAll => filtered
    end in
  sort compareAppointments filtered.

End Filter.

(** *** loadAppointments and handleStatusChange *)

Section Page.

Variable Server : Type.
Variable api : ApiClient Server.
Local Open Scope handler_scope.

(** [useAuth().dentist] *)
Variable dentist : option Dentist.

(** [loadAppointments] up to its [await]: both requests are issued. *)
Definition loadAppointments_start (d : Dentist)
    : M Server PageState (ApiResult (list Appointment * list Patient)) :=
  p1 <- request (GetAppointments (dentist_id d))
          (api_getAppointments Server api (dentist_id d)) ;;
  p2 <- request (GetPatients (dentist_id d))
          (api_getPatients Server api (dentist_id d)) ;;
  ret (promiseAll2 p1 p2).

(** [loadAppointments] from its [await] on. *)
Definition loadAppointments_resume
    (p : ApiResult (list Appointment * list Patient)) : M Server PageState unit :=
  tryFinally
    (tryCatch
       (data <- await p ;;
        setState (setAppointments (fun _ => fst data)) ;;
        setState (setPatients (snd data)))
       (fun _ => emit (ToastError MsgLoadAppointments)))
    (setState (setIsLoading false)).

Definition loadAppointments : M Server PageState unit :=
  match dentist with
  | None => ret tt
  | Some d => p <- loadAppointments_start d ;; loadAppointments_resume p
  end.

Definition changeStatus (id newStatus : JSString) (l : list Appointment)
    : list Appointment :=
  map (fun apt => if strEq (apt_id apt) id then withStatus apt newStatus else apt) l.

(** [handleStatusChange] up to its [await] (lines 126 to 134): the two
    optimistic writes, then the request.  [request] never throws (a
    rejected promise is thrown by [await]), so the request, though written
    inside the [try], belongs to this segment; the segment ends with the
    handler suspended and React free to render the state it leaves. *)
Definition handleStatusChange_start (d : Dentist) (id newStatus : JSString)
    : M Server PageState (ApiResult unit) :=
  setState (setAppointments (changeStatus id newStatus)) ;;
  setState (setFilteredAppointments (changeStatus id newStatus)) ;;
  request (UpdateAppointment id newStatus (dentist_id d))
    (api_updateAppointment Server api id newStatus (dentist_id d)).

(** [handleStatusChange] from its [await] on.  The call
    [loadAppointments()] is not awaited: the handler goes on as soon as
    the requests are issued, and the rest of [loadAppointments] runs once
    the handler has finished. *)
Definition handleStatusChange_resume (d : Dentist) (p : ApiResult unit)
    : M Server PageState unit :=
  pending <-
    tryCatch
      (await p ;;
       emit (ToastSuccess MsgStatusUpdated) ;;
       loadAppointments_start d)
      (fun _ =>
         q <- loadAppointments_start d ;;
         emit (ToastError MsgStatusUpdate) ;;
         ret q) ;;
  loadAppointments_resume pending.

Definition handleStatusChange (id newStatus : JSString) : M Server PageState unit :=
  match dentist with
  | None => ret tt
  | Some d =>
      p <- handleStatusChange_start d id newStatus ;;
      handleStatusChange_resume d p
  end.

End Page.

End AppointmentsPage.

(** ** Vocabulary of the statements *)

Definition leapDays (y : Z) : Z := if isLeapYear y then 1 else 0.

(** Length of month [m] (0 to 11) of year [y]. *)
Definition DaysInMonth (y m : Z) : Z := MakeDay y (m + 1) 1 - MakeDay y m 1.

(** The local calendar day of a date, as a day number. *)
Definition localDay (LocalTZA : Z) (d : Date) : Z := Day (LocalTime LocalTZA d).

(** A call of [onConfirm] that carries both a date and a time. *)
Definition completeSelection (c : Callback) : Prop :=
  match c with
  | CallOnConfirm (Some _) (Some (_ :: _)) => True
  | CallOnConfirm _ _ => False
  | CallOnDateChange _ => True
  end.

(** The scheduler with [currentMonth] at [year]-[month]-[date], 12:00
    local time ([month] counted from 0), today selected. *)
Definition schedulerAt (LocalTZA : Z) (year month date : Z) : SchedulerState :=
  let noon := UTC LocalTZA (MakeDate (MakeDay year month date) (MakeTime 12 0 0 0)) in
  initialState noon noon.

(** An API error is surfaced in a log when the log shows an error
    notification whenever it shows a rejected request. *)
Definition errorsSurfaced (l : list Effect) : Prop :=
  (exists r, In (Api r false) l) -> exists m, In (ToastError m) l.

(** A service that is down: every request is rejected. *)
Definition unreachableApi : ApiClient unit :=
  {| api_getDentist := fun _ s => (Rejected (js "down"), s);
     api_getAvailableSlots := fun _ _ s => (Rejected (js "down"), s);
     api_getPatients := fun _ s => (Rejected (js "down"), s);
     api_createPatient := fun _ _ _ _ s => (Rejected (js "down"), s);
     api_createAppointment := fun _ s => (Rejected (js "down"), s);
     api_getAppointments := fun _ s => (Rejected (js "down"), s);
     api_updateAppointment := fun _ _ _ s => (Rejected (js "down"), s) |}.

(** A world with an empty log. *)
Definition freshWorld {Server S : Type} (srv : Server) (s : S) : World Server S :=
  {| ui := s; server := srv; log := [] |}.

Definition sampleDentist : Dentist :=
  {| dentist_id := js "d1"; dentist_services := [] |}.

Definition sampleAppointment : Appointment :=
  {| apt_id := js "a1"; apt_dentistId := js "d1"; apt_patientId := js "p1";
     apt_serviceId := js "s1"; apt_date := 0; apt_time := js "09:00";
     apt_status := js "pending"; apt_notes := None |}.


(** Comparison of strings by code units, as a stand-in for
    [localeCompare] where a concrete collation is needed. *)
Fixpoint codeUnitCompare (a b : JSString) : Z :=
  match a, b with
  | [], [] => 0
  | [], _ :: _ => -1
  | _ :: _, [] => 1
  | x :: a', y :: b' =>
      if x <? y then -1 else if y <? x then 1 else codeUnitCompare a' b'
  end.

(** The handler [h], started in [w], completes normally (nothing is
    thrown to its caller) and appends [new] to the log. *)
Definition completes {Server S : Type} (h : M Server S unit) (w : World Server S)
    (new : list Effect) : Prop :=
  exists w', h w = (Normal tt, w') /\ log w' = log w ++ new.

Definition noToast (l : list Effect) : Prop := existsb isToast l = false.

Definition laterAppointment : Appointment :=
  {| apt_id := js "a2"; apt_dentistId := js "d1"; apt_patientId := js "p2";
     apt_serviceId := js "s1"; apt_date := 0; apt_time := js "10:30";
     apt_status := js "pending"; apt_notes := None |}.

Definition unsortedPage : AppointmentsPage.PageState :=
  {| AppointmentsPage.appointments := [laterAppointment; sampleAppointment];
     AppointmentsPage.patients := [];
     AppointmentsPage.filteredAppointments := [];
     AppointmentsPage.filter := AppointmentsPage.FilterAll;
     AppointmentsPage.isLoading := false |}.

(** ** NewAppointmentForm.tsx: the scheduler inside the form *)

(** [setDate] of the form (the state setter, not the Date method). *)
Definition form_setDate (d : option Date) (s : NewAppointmentForm.FormState)
    : NewAppointmentForm.FormState :=
  {| NewAppointmentForm.dentist := NewAppointmentForm.dentist s;
     NewAppointmentForm.date := d;
     NewAppointmentForm.time := NewAppointmentForm.time s;
     NewAppointmentForm.serviceId := NewAppointmentForm.serviceId s;
     NewAppointmentForm.patientName := NewAppointmentForm.patientName s;
     NewAppointmentForm.patientPhone := NewAppointmentForm.patientPhone s;
     NewAppointmentForm.patientEmail := NewAppointmentForm.patientEmail s;
     NewAppointmentForm.notes := NewAppointmentForm.notes s;
     NewAppointmentForm.availableSlots := NewAppointmentForm.availableSlots s;
     NewAppointmentForm.isLoading := NewAppointmentForm.isLoading s |}.

(** The props the form hands to [CalendarScheduler]; [now] is the
    [new Date()] read by [disabledDates]. *)
Definition form_schedulerProps (s : NewAppointmentForm.FormState) (now : Date)
    : CalendarSchedulerProps :=
  {| timeSlots := Some (NewAppointmentForm.availableSlots s);
     onConfirm := true;
     onDateChange := true;
     disabledDates := Some (fun d => d <? now) |}.

(** [onDateChange={(d) => setDate(d)}] and
    [onConfirm={({ date: d, time: t }) => { if (d) setDate(d); if (t) setTime(t); }}] *)
Definition form_onCallback (c : Callback) (s : NewAppointmentForm.FormState)
    : NewAppointmentForm.FormState :=
  match c with
  | CallOnDateChange d => form_setDate d s
  | CallOnConfirm d t =>
      let s1 := if truthyDate d then form_setDate d s else s in
      match t with
      | Some t' => if truthy t' then NewAppointmentForm.setTime t' s1 else s1
      | None => s1
      end
  end.

(** ** AppointmentsPage.tsx: badges and the calendar view *)

(** Reading a key of an object literal: an own property, a member
    inherited from [Object.prototype], or [undefined]. *)
Inductive Lookup :=
| Own (v : JSString)
| Inherited
| Undefined.

Definition objectPrototypeKeys : list JSString :=
  [js "constructor"; js "__defineGetter__"; js "__defineSetter__";
   js "hasOwnProperty"; js "__lookupGetter__"; js "__lookupSetter__";
   js "isPrototypeOf"; js "propertyIsEnumerable"; js "toString"; js "valueOf";
   js "__proto__"; js "toLocaleString"].

Fixpoint lookupKey (obj : list (JSString * JSString)) (key : JSString) : Lookup :=
  match obj with
  | [] => if existsb (strEq key) objectPrototypeKeys then Inherited else Undefined
  | (k, v) :: rest => if strEq k key then Own v else lookupKey rest key
  end.

Definition badgeVariants : list (JSString * JSString) :=
  [(js "confirmed", js "default"); (js "pending", js "secondary");
   (js "completed", js "outline"); (js "cancelled", js "destructive")].

(** The labels; 233 is the code unit of the e with an acute accent. *)
Definition badgeLabels : list (JSString * JSString) :=
  [(js "confirmed", js "Confirm" ++ [233]); (js "pending", js "En attente");
   (js "completed", js "Termin" ++ [233]); (js "cancelled", js "Annul" ++ [233])].

(** [getStatusBadge]: the [variant] and the text of the badge. *)
Definition getStatusBadge (status : JSString) : Lookup * Lookup :=
  (lookupKey badgeVariants status, lookupKey badgeLabels status).

Section CalendarView.

Variable LocalTZA : Z.
Variable localeCompare : JSString -> JSString -> Z.

(** The [hasAppointment] modifier of the calendar. *)
Definition hasAppointment (filteredAppointments : list Appointment) : list Date :=
  map (fun apt => setHours LocalTZA (apt_date apt) 0 0 0 0)
    (filter (fun apt => negb (strEq (apt_status apt) (js "cancelled")))
       filteredAppointments).

(** The list shown for the selected date. *)
Definition dayAppointments (selectedDate : Date)
    (filteredAppointments : list Appointment) : list Appointment :=
  let selectedStr := dateStr selectedDate in
  AppointmentsPage.sort
    (fun a b => localeCompare (apt_time a) (apt_time b))
    (filter (fun apt =>
               let aptDate := dateStr (apt_date apt) in
               strEq aptDate selectedStr)
       filteredAppointments).

End CalendarView.

(** ** More vocabulary *)

(** Months counted from year 0: twelve times the year plus the month. *)
Definition monthIndex (LocalTZA : Z) (d : Date) : Z :=
  12 * getFullYear LocalTZA d + getMonth LocalTZA d.

(** The first day of the month with index [i], as a day number. *)
Definition firstOfIndex (i : Z) : Z := MakeDay 0 i 1.

(** The index of the month that contains day [x]. *)
Definition dayIndex (x : Z) : Z :=
  12 * YearFromDay x
  + monthOfYearDay (leapDays (YearFromDay x)) (x - DayFromYear (YearFromDay x)).

(** A call on the props that carries values the component lets the user
    pick: a date with an available slot that [disabledDates] accepts, or an
    available slot of the list in use together with its date. *)
Definition selectableCall (p : CalendarSchedulerProps) (c : Callback) : Prop :=
  match c with
  | CallOnDateChange (Some d) =>
      hasAvailableSlots d (slotsToUse p) = true /\ isExternallyDisabled p d = false
  | CallOnDateChange None => False
  | CallOnConfirm (Some d) (Some t) =>
      getTimeSlotAvailability d t = true /\ In t (slotsToUse p)
  | CallOnConfirm _ _ => False
  end.

(** The selected time, when there is one, is an available slot of the
    selected date. *)
Definition timeBelongsToDate (p : CalendarSchedulerProps) (st : SchedulerState) : Prop :=
  match selectedTime st with
  | Some t =>
      match selectedDate st with
      | Some d => getTimeSlotAvailability d t = true /\ In t (slotsToUse p)
      | None => False
      end
  | None => True
  end.

(** The props with [disabledDates] answering as it does at another
    moment (the form's predicate reads the clock each time it is called). *)
Definition withDisabledDates (p : CalendarSchedulerProps)
    (f : option (Date -> bool)) : CalendarSchedulerProps :=
  {| timeSlots := timeSlots p;
     onConfirm := onConfirm p;
     onDateChange := onDateChange p;
     disabledDates := f |}.


(** * Properties *)

(** ** Strings and the availability hash *)

Ltac lia_div := Z.to_euclidean_division_equations; lia.

Lemma charCodeSum_from (s : JSString) (a : Z) :
  fold_left (fun acc c => acc + c) s a = a + charCodeSum s.
Proof.
  unfold charCodeSum. revert a.
  induction s as [|c s IH]; intros a; cbn [fold_left].
  - lia.
  - rewrite (IH (a + c)), (IH (0 + c)). lia.
Qed.

Lemma charCodeSum_app (s t : JSString) :
  charCodeSum (s ++ t) = charCodeSum s + charCodeSum t.
Proof.
  unfold charCodeSum at 1. rewrite fold_left_app.
  rewrite charCodeSum_from. reflexivity.
Qed.

Lemma split_head (sep : Z) (a b : JSString) :
  Forall (fun c => c <> sep) a ->
  nth 0 (split sep (a ++ sep :: b)) [] = a.
Proof.
  induction 1 as [|c a Hc _ IH]; cbn [app split].
  - rewrite Z.eqb_refl. reflexivity.
  - destruct (Z.eqb_spec c sep) as [E|_]; [contradiction|].
    destruct (split sep (a ++ sep :: b)) as [|h t]; cbn [nth] in *.
    + subst a. reflexivity.
    + now subst h.
Qed.

Lemma padDigits_digits (w : nat) (n : Z) :
  Forall (fun c => 48 <= c <= 57) (padDigits w n).
Proof.
  revert n. induction w as [|w IH]; intros n; cbn [padDigits].
  - constructor.
  - apply Forall_app. split; [apply IH|].
    constructor; [lia_div|constructor].
Qed.

Lemma padDigits_length (w : nat) (n : Z) : List.length (padDigits w n) = w.
Proof.
  revert n. induction w as [|w IH]; intros n; cbn [padDigits].
  - reflexivity.
  - rewrite length_app, IH. cbn. lia.
Qed.

Lemma isoYear_no_T (y : Z) : Forall (fun c => c <> 84) (isoYear y).
Proof.
  assert (D : forall w n, Forall (fun c => c <> 84) (padDigits w n)).
  { intros w n. eapply Forall_impl; [|apply padDigits_digits].
    cbv beta. intros; lia. }
  unfold isoYear.
  destruct ((0 <=? y) && (y <=? 9999)); [apply D|].
  destruct (y <? 0).
  - change (js "-") with [45]. constructor; [discriminate|apply D].
  - change (js "+") with [43]. constructor; [discriminate|apply D].
Qed.

Lemma isoDay_no_T (t : Date) : Forall (fun c => c <> 84) (isoDay t).
Proof.
  assert (D : forall w n, Forall (fun c => c <> 84) (padDigits w n)).
  { intros w n. eapply Forall_impl; [|apply padDigits_digits].
    cbv beta. intros; lia. }
  unfold isoDay. change (js "-") with [45].
  generalize (YearFromTime t) (MonthFromTime t + 1) (DateFromTime t).
  intros y m d.
  apply Forall_app; split; [apply isoYear_no_T|].
  constructor; [discriminate|].
  apply Forall_app; split; [apply D|].
  constructor; [discriminate|apply D].
Qed.

(** The day string read by the helpers is the day part of the ISO string. *)
Lemma dateStr_isoDay (date : Date) : dateStr date = isoDay date.
Proof.
  unfold dateStr, toISOString. change (js "T") with [84].
  generalize (isoDay_no_T date). generalize (isoDay date) (isoClock date).
  intros a b H. now apply split_head.
Qed.

(** The hash of the helpers is the sum of the code units. *)
Lemma charCodeSum_sum (s : JSString) : charCodeSum s = fold_right Z.add 0 s.
Proof.
  induction s as [|c s IH].
  - reflexivity.
  - change (c :: s) with ([c] ++ s). rewrite charCodeSum_app.
    cbn [app fold_right]. rewrite <- IH. unfold charCodeSum at 1. cbn. lia.
Qed.

(** For a year of four digits the day string is [YYYY-MM-DD], digit by
    digit (48 is the code unit of the digit 0, 45 that of the hyphen). *)
Lemma isoDay_digits (date : Date) :
  0 <= YearFromTime date <= 9999 ->
  let y := YearFromTime date in
  let m := MonthFromTime date + 1 in
  let d := DateFromTime date in
  isoDay date
  = [48 + (y / 1000) mod 10; 48 + (y / 100) mod 10; 48 + (y / 10) mod 10; 48 + y mod 10;
     45; 48 + (m / 10) mod 10; 48 + m mod 10;
     45; 48 + (d / 10) mod 10; 48 + d mod 10].
Proof.
  intros Hy. cbv zeta. unfold isoDay, isoYear.
  destruct (Z.leb_spec 0 (YearFromTime date)); [|lia].
  destruct (Z.leb_spec (YearFromTime date) 9999); [|lia].
  cbn [andb]. change (js "-") with [45].
  generalize (YearFromTime date) (MonthFromTime date + 1) (DateFromTime date).
  intros y m d. cbn [padDigits app].
  replace (y / 10 / 10 / 10) with (y / 1000) by lia_div.
  replace (y / 10 / 10) with (y / 100) by lia_div.
  reflexivity.
Qed.

(** C1. [getDateAvailability] is a function of the ISO day string of the
    date alone: the day string it hashes is the [YYYY-MM-DD] part of
    [toISOString] (written out digit by digit for a year of four digits);
    it answers [true] exactly when the sum of the character codes of that
    string is not divisible by 5, and so [false] (fully booked) exactly
    when the sum is a multiple of 5; two dates with the same day string
    get the same answer. *)
Theorem getDateAvailability_spec (date : Date) :
  dateStr date = isoDay date /\
  (0 <= YearFromTime date <= 9999 ->
   let y := YearFromTime date in
   let m := MonthFromTime date + 1 in
   let d := DateFromTime date in
   isoDay date
   = [48 + (y / 1000) mod 10; 48 + (y / 100) mod 10; 48 + (y / 10) mod 10;
      48 + y mod 10;
      45; 48 + (m / 10) mod 10; 48 + m mod 10;
      45; 48 + (d / 10) mod 10; 48 + d mod 10]) /\
  (getDateAvailability date = true <-> ~ (5 | fold_right Z.add 0 (isoDay date))) /\
  (getDateAvailability date = false <-> (5 | fold_right Z.add 0 (isoDay date))) /\
  (forall date' : Date,
      isoDay date' = isoDay date ->
      getDateAvailability date' = getDateAvailability date).
Proof.
  assert (R : forall h, Z.rem h 5 = 0 <-> (5 | h))
    by (intros h; apply Z.rem_divide; discriminate).
  split; [apply dateStr_isoDay|]. split; [apply isoDay_digits|].
  unfold getDateAvailability.
  rewrite dateStr_isoDay, <- charCodeSum_sum.
  destruct (Z.eqb_spec (Z.rem (charCodeSum (isoDay date)) 5) 0) as [E|E];
    cbn [negb]; rewrite R in E.
  - repeat split; try (intros; congruence); try tauto.
    intros date' Hd. rewrite dateStr_isoDay, Hd.
    apply R in E. rewrite E. reflexivity.
  - repeat split; try (intros; congruence); try tauto.
    intros date' Hd. rewrite dateStr_isoDay, Hd.
    destruct (Z.eqb_spec (Z.rem (charCodeSum (isoDay date)) 5) 0) as [E'|E'];
      [apply R in E'; contradiction|reflexivity].
Qed.

(** C2. A slot of a day that [getDateAvailability] rejects is never
    available; on any other day a slot is available exactly when the sum
    of the character codes of ["YYYY-MM-DD-<time>"] (the day string, a
    hyphen, code unit 45, and the time) is even; and [hasAvailableSlots]
    holds exactly when some slot of the list is available in this sense. *)
Theorem getTimeSlotAvailability_spec (date : Date) (time : JSString)
    (slots : list JSString) :
  (getDateAvailability date = false -> getTimeSlotAvailability date time = false) /\
  (getDateAvailability date = true ->
     (getTimeSlotAvailability date time = true <->
      Z.Even (fold_right Z.add 0 (isoDay date ++ [45] ++ time)))) /\
  (hasAvailableSlots date slots = true <->
     exists slot, In slot slots /\ getTimeSlotAvailability date slot = true).
Proof.
  split; [|split].
  - unfold getTimeSlotAvailability. intros ->. reflexivity.
  - unfold getTimeSlotAvailability. intros ->. cbn [negb].
    change (js "-") with [45].
    rewrite dateStr_isoDay, Z.eqb_eq, Z.rem_divide by discriminate.
    rewrite charCodeSum_sum.
    split; intros [k Hk]; exists k; lia.
  - unfold hasAvailableSlots. apply existsb_exists.
Qed.

(** ** The calendar *)

Lemma DayFromYear_succ (y : Z) : DayFromYear (y + 1) = DayFromYear y + DaysInYear y.
Proof.
  unfold DayFromYear, DaysInYear, isLeapYear.
  replace (y + 1 - 1969) with (y - 1969 + 1) by lia.
  replace (y + 1 - 1901) with (y - 1901 + 1) by lia.
  replace (y + 1 - 1601) with (y - 1601 + 1) by lia.
  destruct (Z.eqb_spec (y mod 4) 0); destruct (Z.eqb_spec (y mod 100) 0);
    destruct (Z.eqb_spec (y mod 400) 0); cbn [negb]; lia_div.
Qed.

(** [YearFromDay d] is the year that contains day [d]. *)
Lemma YearFromDay_spec (d : Z) :
  DayFromYear (YearFromDay d) <= d < DayFromYear (YearFromDay d + 1).
Proof.
  unfold YearFromDay.
  set (y0 := 1970 + 400 * d / 146097).
  destruct (Z.ltb_spec d (DayFromYear y0)).
  - replace (y0 - 1 + 1) with y0 by lia. split; [|lia].
    unfold DayFromYear in *. subst y0. lia_div.
  - destruct (Z.leb_spec (DayFromYear (y0 + 1)) d).
    + split; [lia|]. unfold DayFromYear in *. subst y0. lia_div.
    + lia.
Qed.

Lemma DayFromYear_le (y y' : Z) : y <= y' -> DayFromYear y <= DayFromYear y'.
Proof. unfold DayFromYear. intros. lia_div. Qed.

Lemma YearFromDay_unique (d y : Z) :
  DayFromYear y <= d < DayFromYear (y + 1) -> YearFromDay d = y.
Proof.
  intros H. pose proof (YearFromDay_spec d) as S.
  destruct (Z.lt_trichotomy (YearFromDay d) y) as [L|[E|G]]; [|exact E|].
  - pose proof (DayFromYear_le (YearFromDay d + 1) y ltac:(lia)). lia.
  - pose proof (DayFromYear_le (y + 1) (YearFromDay d) ltac:(lia)). lia.
Qed.

Lemma leapDays_range (y : Z) : 0 <= leapDays y <= 1.
Proof. unfold leapDays. destruct (isLeapYear y); lia. Qed.

Lemma DaysInYear_leapDays (y : Z) : DaysInYear y = 365 + leapDays y.
Proof. unfold DaysInYear, leapDays. destruct (isLeapYear y); reflexivity. Qed.

Lemma monthOfYearDay_range (leap dwy : Z) : 0 <= monthOfYearDay leap dwy <= 11.
Proof.
  unfold monthOfYearDay.
  repeat match goal with |- context [if ?b then _ else _] => destruct b end; lia.
Qed.

Ltac month_cases m :=
  let C := fresh "C" in
  assert (m = 0 \/ m = 1 \/ m = 2 \/ m = 3 \/ m = 4 \/ m = 5 \/ m = 6 \/ m = 7
          \/ m = 8 \/ m = 9 \/ m = 10 \/ m = 11) as C by lia;
  repeat (destruct C as [C|C]); subst m.

Ltac table :=
  change (0 + 1) with 1 in *;
  repeat match goal with
         | |- context [Z.pos ?a + 1] =>
             let v := eval cbv in (Z.pos a + 1) in change (Z.pos a + 1) with v in *
         end;
  cbv -[Z.add Z.sub Z.le Z.lt] in *.

(** Months are 28 to 31 days long (December is handled with the year). *)
Lemma monthStartDay_step (leap m : Z) :
  0 <= leap <= 1 -> 0 <= m <= 10 ->
  28 <= monthStartDay leap (m + 1) - monthStartDay leap m <= 31.
Proof.
  intros Hl Hm. month_cases m; table; lia.
Qed.

(** A day of the year lies within the month the table assigns to it. *)
Lemma monthOfYearDay_bounds (leap dwy : Z) :
  0 <= leap <= 1 -> 0 <= dwy < 365 + leap ->
  let m := monthOfYearDay leap dwy in
  monthStartDay leap m <= dwy /\
  (m <= 10 -> dwy < monthStartDay leap (m + 1)) /\
  (m = 11 -> monthStartDay leap m = 334 + leap).
Proof.
  intros Hl Hd. unfold monthOfYearDay.
  repeat match goal with
         | |- context [?a <? ?b] => destruct (Z.ltb_spec a b)
         end; cbv zeta; table; lia.
Qed.

Lemma MonthFromTime_range (t : Z) : 0 <= MonthFromTime t <= 11.
Proof. apply monthOfYearDay_range. Qed.

(** [MakeDay] of the fields of a time value gives back its day; with the
    date replaced, the day moves by the difference. *)
Lemma MakeDay_fields (t dt : Z) :
  MakeDay (YearFromTime t) (MonthFromTime t) dt = Day t - DateFromTime t + dt.
Proof.
  pose proof (MonthFromTime_range t) as Hm.
  unfold MakeDay.
  replace (MonthFromTime t / 12) with 0 by lia_div.
  replace (MonthFromTime t mod 12) with (MonthFromTime t) by lia_div.
  rewrite Z.add_0_r.
  unfold DateFromTime, DayWithinYear, InLeapYear. lia.
Qed.

Lemma MakeDay_in_year (y m d : Z) :
  0 <= m <= 11 -> MakeDay y m d = DayFromYear y + monthStartDay (leapDays y) m + d - 1.
Proof.
  intros Hm. unfold MakeDay, leapDays.
  replace (m / 12) with 0 by lia_div.
  replace (m mod 12) with m by lia_div.
  rewrite Z.add_0_r. reflexivity.
Qed.

Lemma MakeDay_next_year (y d : Z) :
  MakeDay y 12 d = DayFromYear y + 365 + leapDays y + d - 1.
Proof.
  unfold MakeDay. change (12 / 12) with 1. change (12 mod 12) with 0.
  rewrite DayFromYear_succ, DaysInYear_leapDays.
  change (monthStartDay _ 0) with 0. lia.
Qed.

Lemma DaysInMonth_range (y m : Z) : 0 <= m <= 11 -> 28 <= DaysInMonth y m <= 31.
Proof.
  intros Hm. unfold DaysInMonth.
  pose proof (leapDays_range y) as Hl.
  destruct (Z.eq_dec m 11) as [->|Hne].
  - change (11 + 1) with 12.
    rewrite MakeDay_next_year, MakeDay_in_year by lia.
    change (monthStartDay (leapDays y) 11) with (334 + leapDays y). lia.
  - rewrite !MakeDay_in_year by lia.
    pose proof (monthStartDay_step (leapDays y) m Hl ltac:(lia)). lia.
Qed.

(** The days of month [m] of year [y] are the [DaysInMonth y m] days from
    [MakeDay y m 1] on. *)
Lemma day_in_month (x : Z) :
  let y := YearFromDay x in
  let m := monthOfYearDay (leapDays y) (x - DayFromYear y) in
  MakeDay y m 1 <= x < MakeDay y m 1 + DaysInMonth y m.
Proof.
  intros y m.
  pose proof (YearFromDay_spec x) as Hy. fold y in Hy.
  rewrite DayFromYear_succ, DaysInYear_leapDays in Hy.
  pose proof (leapDays_range y) as Hl.
  pose proof (monthOfYearDay_bounds (leapDays y) (x - DayFromYear y) Hl ltac:(lia))
    as (Hb1 & Hb2 & Hb3).
  fold m in Hb1, Hb2, Hb3.
  pose proof (monthOfYearDay_range (leapDays y) (x - DayFromYear y)) as Hm. fold m in Hm.
  unfold DaysInMonth.
  destruct (Z.eq_dec m 11) as [E|Hne].
  - specialize (Hb3 E). rewrite (MakeDay_in_year y m) by lia.
    rewrite E. change (11 + 1) with 12. rewrite MakeDay_next_year.
    rewrite E in *. lia.
  - rewrite !MakeDay_in_year by lia. specialize (Hb2 ltac:(lia)). lia.
Qed.

(** ** Local time and the date-fns helpers *)

Lemma Day_MakeDate (day time : Z) :
  0 <= time < msPerDay ->
  Day (MakeDate day time) = day /\ TimeWithinDay (MakeDate day time) = time.
Proof.
  unfold Day, TimeWithinDay, MakeDate, msPerDay. intros H. lia_div.
Qed.

Lemma TimeWithinDay_range (t : Z) : 0 <= TimeWithinDay t < msPerDay.
Proof. unfold TimeWithinDay, msPerDay. lia_div. Qed.

Lemma count_occ_days (base x : Z) (n s : nat) :
  count_occ Z.eq_dec (map (fun i => base + Z.of_nat i) (seq s n)) x
  = if (base + Z.of_nat s <=? x) && (x <? base + Z.of_nat s + Z.of_nat n)
    then 1%nat else 0%nat.
Proof.
  revert s. induction n as [|n IH]; intros s; cbn [seq map count_occ].
  - destruct (Z.leb_spec (base + Z.of_nat s) x);
      destruct (Z.ltb_spec x (base + Z.of_nat s + Z.of_nat 0)); cbn; lia.
  - rewrite IH.
    destruct (Z.eq_dec (base + Z.of_nat s) x) as [E|E];
      destruct (Z.leb_spec (base + Z.of_nat s) x);
      destruct (Z.leb_spec (base + Z.of_nat (S s)) x);
      destruct (Z.ltb_spec x (base + Z.of_nat (S s) + Z.of_nat n));
      destruct (Z.ltb_spec x (base + Z.of_nat s + Z.of_nat (S n)));
      cbn [andb]; lia.
Qed.

Lemma map_seq_from {A : Type} (g : nat -> A) (s n : nat) :
  map g (seq s n) = map (fun i => g (s + i)%nat) (seq 0 n).
Proof.
  revert s g. induction n as [|n IH]; intros s g; cbn [seq map].
  - reflexivity.
  - f_equal; [f_equal; lia|].
    rewrite (IH (S s) g), (IH 1%nat (fun i => g (s + i)%nat)).
    apply map_ext. intros i. f_equal. lia.
Qed.

Section LocalTimeFacts.

Variable LocalTZA : Z.

Local Abbreviation LocalTime := (LocalTime LocalTZA).
Local Abbreviation UTC := (UTC LocalTZA).
Local Abbreviation localDay := (localDay LocalTZA).
Local Abbreviation getDate := (getDate LocalTZA).
Local Abbreviation getMonth := (getMonth LocalTZA).
Local Abbreviation getFullYear := (getFullYear LocalTZA).
Local Abbreviation getDay := (getDay LocalTZA).
Local Abbreviation setDate := (setDate LocalTZA).
Local Abbreviation setHours := (setHours LocalTZA).
Local Abbreviation addDays := (addDays LocalTZA).
Local Abbreviation startOfMonth := (startOfMonth LocalTZA).
Local Abbreviation endOfMonth := (endOfMonth LocalTZA).
Local Abbreviation eachDayLoop := (eachDayLoop LocalTZA).
Local Abbreviation eachDayOfInterval := (eachDayOfInterval LocalTZA).
Local Abbreviation monthStart := (monthStart LocalTZA).
Local Abbreviation monthEnd := (monthEnd LocalTZA).
Local Abbreviation gridDays := (gridDays LocalTZA).

Lemma LocalTime_UTC (t : Z) : LocalTime (UTC t) = t.
Proof. unfold LocalTime, UTC. lia. Qed.

Lemma UTC_LocalTime (t : Z) : UTC (LocalTime t) = t.
Proof. unfold LocalTime, UTC. lia. Qed.

Lemma localDay_UTC (day time : Z) :
  0 <= time < msPerDay -> localDay (UTC (MakeDate day time)) = day.
Proof.
  intros H. unfold localDay. rewrite LocalTime_UTC.
  now apply Day_MakeDate.
Qed.

(** [setDate] moves the local day by the change of the date. *)
Lemma localDay_setDate (d : Date) (dt : Z) :
  localDay (setDate d dt) = localDay d - getDate d + dt.
Proof.
  unfold setDate. rewrite localDay_UTC by apply TimeWithinDay_range.
  apply MakeDay_fields.
Qed.

Lemma LocalTime_setHours (d : Date) (h m s ms : Z) :
  LocalTime (setHours d h m s ms) = localDay d * msPerDay + MakeTime h m s ms.
Proof. unfold setHours. now rewrite LocalTime_UTC. Qed.

Lemma localDay_addDays (d : Date) (n : Z) : localDay (addDays d n) = localDay d + n.
Proof.
  unfold addDays. destruct (Z.eqb_spec n 0) as [->|_]; [lia|].
  rewrite localDay_setDate. lia.
Qed.

(** The first day of the month of [d], as a day number. *)
Definition firstDay (d : Date) : Z := MakeDay (getFullYear d) (getMonth d) 1.

Lemma firstDay_eq (d : Date) : firstDay d = localDay d - getDate d + 1.
Proof. apply MakeDay_fields. Qed.

Lemma LocalTime_startOfMonth (d : Date) :
  LocalTime (startOfMonth d) = firstDay d * msPerDay.
Proof.
  unfold startOfMonth. rewrite LocalTime_setHours, localDay_setDate.
  rewrite firstDay_eq. unfold MakeTime. lia.
Qed.

Lemma localDay_startOfMonth (d : Date) : localDay (startOfMonth d) = firstDay d.
Proof.
  unfold localDay at 1. rewrite LocalTime_startOfMonth.
  unfold Day, msPerDay. lia_div.
Qed.

Lemma LocalTime_endOfMonth (d : Date) :
  LocalTime (endOfMonth d)
  = (firstDay d + DaysInMonth (getFullYear d) (getMonth d) - 1) * msPerDay
    + (msPerDay - 1).
Proof.
  unfold endOfMonth. rewrite LocalTime_setHours.
  unfold setFullYear. rewrite localDay_UTC by apply TimeWithinDay_range.
  unfold firstDay, DaysInMonth.
  assert (E : forall y m, MakeDay y m 0 = MakeDay y m 1 - 1)
    by (intros; unfold MakeDay; lia).
  rewrite E. unfold MakeTime, msPerDay, msPerHour, msPerMinute, msPerSecond. lia.
Qed.

Lemma localDay_endOfMonth (d : Date) :
  localDay (endOfMonth d)
  = firstDay d + DaysInMonth (getFullYear d) (getMonth d) - 1.
Proof.
  unfold localDay at 1. rewrite LocalTime_endOfMonth.
  unfold Day, msPerDay. lia_div.
Qed.

(** The day loop started at local midnight of day [D] lists the [n]
    midnights up to the day of [endTime], given [n] iterations. *)
Lemma eachDayLoop_midnights (n fuel : nat) (D r : Z) :
  0 <= r < msPerDay -> (n <= fuel)%nat ->
  eachDayLoop fuel (UTC (D * msPerDay))
    (UTC ((D + Z.of_nat n - 1) * msPerDay + r))
  = Some (map (fun i => UTC ((D + Z.of_nat i) * msPerDay)) (seq 0 n)).
Proof.
  intros Hr. revert fuel D.
  induction n as [|n IH]; intros fuel D Hf.
  - destruct fuel; cbn [eachDayLoop seq map];
      destruct (Z.leb_spec (UTC (D * msPerDay))
                  (UTC ((D + Z.of_nat 0 - 1) * msPerDay + r))) as [H|H];
      try reflexivity;
      unfold UTC, msPerDay in *; lia.
  - destruct fuel as [|fuel]; [lia|].
    cbn [eachDayLoop].
    destruct (Z.leb_spec (UTC (D * msPerDay))
                (UTC ((D + Z.of_nat (S n) - 1) * msPerDay + r))) as [H|H];
      [|unfold UTC, msPerDay in *; lia].
    assert (N : setHours (setDate (UTC (D * msPerDay))
                            (getDate (UTC (D * msPerDay)) + 1)) 0 0 0 0
                = UTC ((D + 1) * msPerDay)).
    { rewrite <- (UTC_LocalTime (setHours _ 0 0 0 0)).
      rewrite LocalTime_setHours, localDay_setDate.
      replace (localDay (UTC (D * msPerDay))) with D.
      - unfold MakeTime. f_equal. lia.
      - symmetry. replace (D * msPerDay) with (MakeDate D 0)
          by (unfold MakeDate; lia).
        apply localDay_UTC. unfold msPerDay; lia. }
    rewrite N.
    replace (D + Z.of_nat (S n) - 1) with (D + 1 + Z.of_nat n - 1) by lia.
    rewrite IH by lia. cbn [option_map seq map]. do 2 f_equal.
    + f_equal. lia.
    + rewrite <- seq_shift, map_map. apply map_ext. intros i. do 2 f_equal. lia.
Qed.

(** The days of the month, as [eachDayOfInterval] lists them. *)
Lemma calendarDays_spec (d : Date) :
  eachDayOfInterval (startOfMonth d) (endOfMonth d)
  = Some (map (fun i => UTC ((firstDay d + Z.of_nat i) * msPerDay))
            (seq 0 (Z.to_nat (DaysInMonth (getFullYear d) (getMonth d))))).
Proof.
  pose proof (DaysInMonth_range (getFullYear d) (getMonth d)
                (MonthFromTime_range _)) as HL.
  set (L := DaysInMonth (getFullYear d) (getMonth d)) in *.
  assert (Es : startOfMonth d = UTC (firstDay d * msPerDay))
    by (rewrite <- LocalTime_startOfMonth; symmetry; apply UTC_LocalTime).
  assert (Ee : endOfMonth d
               = UTC ((firstDay d + Z.of_nat (Z.to_nat L) - 1) * msPerDay
                      + (msPerDay - 1))).
  { rewrite <- (UTC_LocalTime (endOfMonth d)), LocalTime_endOfMonth.
    fold L. rewrite Z2Nat.id by lia. reflexivity. }
  unfold eachDayOfInterval.
  assert (Hlt : (endOfMonth d <? startOfMonth d) = false).
  { apply Z.ltb_ge. rewrite Es, Ee, Z2Nat.id by lia.
    unfold UTC, msPerDay. lia. }
  rewrite Hlt.
  assert (E0 : setHours (startOfMonth d) 0 0 0 0 = startOfMonth d).
  { rewrite <- (UTC_LocalTime (setHours _ 0 0 0 0)), LocalTime_setHours.
    rewrite localDay_startOfMonth, Es. unfold MakeTime. f_equal. lia. }
  rewrite E0, Es, Ee.
  rewrite eachDayLoop_midnights; [reflexivity|unfold msPerDay; lia|].
  rewrite Z2Nat.id by lia. unfold UTC, msPerDay. lia_div.
Qed.

Lemma getDay_range (d : Date) : 0 <= getDay d <= 6.
Proof. unfold getDay, WeekDay. lia_div. Qed.

(** The grid, as local day numbers: 42 consecutive days from the Sunday
    on or before the first of the month. *)
Lemma gridDays_localDays (st : SchedulerState) :
  exists days,
    gridDays st = Some days /\
    map localDay days
    = map (fun i => firstDay (currentMonth st) - getDay (monthStart st) + Z.of_nat i)
        (seq 0 42).
Proof.
  set (cm := currentMonth st).
  pose proof (DaysInMonth_range (getFullYear cm) (getMonth cm)
                (MonthFromTime_range _)) as HL.
  pose proof (getDay_range (monthStart st)) as Hf.
  unfold gridDays.
  unfold monthStart at 1, monthEnd at 1. fold cm.
  rewrite calendarDays_spec.
  set (L := DaysInMonth (getFullYear cm) (getMonth cm)) in *.
  set (f := getDay (monthStart st)) in *.
  unfold arrayInit at 1.
  destruct (Z.ltb_spec f 0) as [?|_]; [lia|].
  rewrite length_app, !length_map, !length_seq.
  unfold arrayInit.
  destruct (Z.ltb_spec (42 - Z.of_nat (Z.to_nat f + Z.to_nat L)) 0) as [?|_]; [lia|].
  eexists. split; [reflexivity|].
  replace 42%nat
    with (Z.to_nat f + (Z.to_nat L
            + Z.to_nat (42 - Z.of_nat (Z.to_nat f + Z.to_nat L))))%nat by lia.
  rewrite !seq_app, !map_app, !map_map, <- app_assoc.
  rewrite (map_seq_from _ (0 + Z.to_nat f)), (map_seq_from _ (0 + Z.to_nat f + Z.to_nat L)).
  f_equal; [|f_equal].
  - apply map_ext_in. intros i Hi%in_seq.
    rewrite localDay_addDays. unfold monthStart. fold cm.
    rewrite localDay_startOfMonth. lia.
  - apply map_ext. intros i.
    replace ((firstDay cm + Z.of_nat i) * msPerDay)
      with (MakeDate (firstDay cm + Z.of_nat i) 0) by (unfold MakeDate; lia).
    rewrite localDay_UTC by (unfold msPerDay; lia). lia.
  - apply map_ext_in. intros i Hi%in_seq.
    rewrite localDay_addDays. unfold monthEnd. fold cm.
    rewrite localDay_endOfMonth. fold L. lia.
Qed.

End LocalTimeFacts.

(** ** calendar-scheduler.tsx: the grid *)

Lemma monthOfYearDay_start (leap m : Z) :
  0 <= leap <= 1 -> 0 <= m <= 11 -> monthOfYearDay leap (monthStartDay leap m) = m.
Proof.
  intros Hl Hm.
  assert (leap = 0 \/ leap = 1) as [-> | ->] by lia; month_cases m; reflexivity.
Qed.


Lemma monthStartDay_nonneg (leap m : Z) :
  0 <= leap <= 1 -> 0 <= m <= 11 -> 0 <= monthStartDay leap m.
Proof. intros Hl Hm. month_cases m; table; lia. Qed.

Lemma getFullYear_localDay (LocalTZA : Z) (d : Date) :
  getFullYear LocalTZA d = YearFromDay (localDay LocalTZA d).
Proof. reflexivity. Qed.

Lemma getMonth_localDay (LocalTZA : Z) (d : Date) :
  getMonth LocalTZA d
  = monthOfYearDay (leapDays (YearFromDay (localDay LocalTZA d)))
      (localDay LocalTZA d - DayFromYear (YearFromDay (localDay LocalTZA d))).
Proof. reflexivity. Qed.

Lemma getDate_localDay (LocalTZA : Z) (d : Date) :
  getDate LocalTZA d
  = localDay LocalTZA d - DayFromYear (getFullYear LocalTZA d)
    - monthStartDay (leapDays (getFullYear LocalTZA d)) (getMonth LocalTZA d) + 1.
Proof. reflexivity. Qed.

Lemma first_of_month_fields (x : Z) :
  let y := YearFromDay x in
  let m := monthOfYearDay (leapDays y) (x - DayFromYear y) in
  let x0 := DayFromYear y + monthStartDay (leapDays y) m in
  YearFromDay x0 = y /\
  monthOfYearDay (leapDays y) (x0 - DayFromYear y) = m.
Proof.
  intros y m x0.
  pose proof (YearFromDay_spec x) as Hy. fold y in Hy.
  rewrite DayFromYear_succ, DaysInYear_leapDays in Hy.
  pose proof (leapDays_range y) as Hl.
  pose proof (monthOfYearDay_bounds (leapDays y) (x - DayFromYear y) Hl ltac:(lia))
    as (Hb1 & _ & _).
  pose proof (monthOfYearDay_range (leapDays y) (x - DayFromYear y)) as Hm.
  fold m in Hb1, Hm.
  pose proof (monthStartDay_nonneg (leapDays y) m Hl Hm) as H0.
  split.
  - apply YearFromDay_unique. rewrite DayFromYear_succ, DaysInYear_leapDays.
    subst x0. lia.
  - subst x0.
    replace (DayFromYear y + monthStartDay (leapDays y) m - DayFromYear y)
      with (monthStartDay (leapDays y) m) by lia.
    now apply monthOfYearDay_start.
Qed.

(** The first of the month has the year and the month of the date it was
    computed from, and date 1. *)
Lemma startOfMonth_fields (LocalTZA : Z) (d : Date) :
  getFullYear LocalTZA (startOfMonth LocalTZA d) = getFullYear LocalTZA d /\
  getMonth LocalTZA (startOfMonth LocalTZA d) = getMonth LocalTZA d /\
  getDate LocalTZA (startOfMonth LocalTZA d) = 1.
Proof.
  assert (E : localDay LocalTZA (startOfMonth LocalTZA d)
              = DayFromYear (getFullYear LocalTZA d)
                + monthStartDay (leapDays (getFullYear LocalTZA d))
                    (getMonth LocalTZA d)).
  { rewrite localDay_startOfMonth, firstDay_eq, getDate_localDay. lia. }
  pose proof (first_of_month_fields (localDay LocalTZA d)) as H.
  cbv zeta in H. rewrite <- !getMonth_localDay, <- !getFullYear_localDay in H.
  rewrite <- E in H. destruct H as [Hy Hm].
  assert (Hy' : getFullYear LocalTZA (startOfMonth LocalTZA d)
                = getFullYear LocalTZA d)
    by (rewrite getFullYear_localDay; exact Hy).
  assert (Hm' : getMonth LocalTZA (startOfMonth LocalTZA d) = getMonth LocalTZA d).
  { rewrite getMonth_localDay, <- getFullYear_localDay, Hy'. exact Hm. }
  split; [exact Hy'|]. split; [exact Hm'|].
  rewrite getDate_localDay, Hy', Hm', E. lia.
Qed.

(** C8. For every state the grid is computed (no exception, the day loop
    ends) and has exactly 42 cells; read as local calendar days, cell [i]
    is day [i] counted from [getDay (startOfMonth currentMonth)] days
    before the first of the displayed month, so each cell is the day after
    its predecessor; and the day of every date whose year and month are
    those of [currentMonth] is the day of exactly one cell.  [monthStart]
    is date 1 of the year and month of [currentMonth]. *)
Theorem gridDays_spec (LocalTZA : Z) (st : SchedulerState) :
  exists days,
    gridDays LocalTZA st = Some days /\
    List.length days = 42%nat /\
    (getFullYear LocalTZA (monthStart LocalTZA st) = getFullYear LocalTZA (currentMonth st) /\
     getMonth LocalTZA (monthStart LocalTZA st) = getMonth LocalTZA (currentMonth st) /\
     getDate LocalTZA (monthStart LocalTZA st) = 1) /\
    (forall i, (i < 42)%nat ->
       localDay LocalTZA (nth i days 0)
       = localDay LocalTZA (monthStart LocalTZA st)
         - getDay LocalTZA (monthStart LocalTZA st) + Z.of_nat i) /\
    (forall i, (S i < 42)%nat ->
       localDay LocalTZA (nth (S i) days 0) = localDay LocalTZA (nth i days 0) + 1) /\
    (forall d : Date,
       getFullYear LocalTZA d = getFullYear LocalTZA (currentMonth st) ->
       getMonth LocalTZA d = getMonth LocalTZA (currentMonth st) ->
       count_occ Z.eq_dec (map (localDay LocalTZA) days) (localDay LocalTZA d) = 1%nat).
Proof.
  destruct (gridDays_localDays LocalTZA st) as (days & Hg & Hdays).
  exists days.
  assert (Hlen : List.length days = 42%nat).
  { rewrite <- (length_map (localDay LocalTZA)), Hdays, length_map, length_seq.
    reflexivity. }
  set (base := firstDay LocalTZA (currentMonth st)
               - getDay LocalTZA (monthStart LocalTZA st)) in *.
  assert (Hnth : forall i, (i < 42)%nat ->
            localDay LocalTZA (nth i days 0) = base + Z.of_nat i).
  { intros i Hi.
    rewrite <- (map_nth (localDay LocalTZA)), Hdays.
    rewrite (nth_indep _ _ (base + Z.of_nat 0)) by (rewrite length_map, length_seq; lia).
    rewrite (map_nth (fun i => base + Z.of_nat i)), seq_nth by lia. reflexivity. }
  assert (Hfirst : localDay LocalTZA (monthStart LocalTZA st)
                   = firstDay LocalTZA (currentMonth st))
    by apply localDay_startOfMonth.
  split; [exact Hg|]. split; [exact Hlen|].
  split; [apply startOfMonth_fields|].
  split; [|split].
  - intros i Hi. rewrite Hnth, Hfirst by assumption. reflexivity.
  - intros i Hi. rewrite !Hnth by lia. lia.
  - intros d Hy Hm. rewrite Hdays.
    rewrite count_occ_days.
    pose proof (day_in_month (localDay LocalTZA d)) as Hd. cbv zeta in Hd.
    rewrite <- !getMonth_localDay, <- !getFullYear_localDay in Hd.
    rewrite Hy, Hm in Hd.
    assert (Ef : firstDay LocalTZA (currentMonth st)
                 = MakeDay (getFullYear LocalTZA (currentMonth st))
                     (getMonth LocalTZA (currentMonth st)) 1) by reflexivity.
    rewrite <- Ef in Hd.
    pose proof (DaysInMonth_range (getFullYear LocalTZA (currentMonth st))
                  (getMonth LocalTZA (currentMonth st)) (MonthFromTime_range _)).
    pose proof (getDay_range LocalTZA (monthStart LocalTZA st)).
    destruct (Z.leb_spec (base + Z.of_nat 0) (localDay LocalTZA d));
      destruct (Z.ltb_spec (localDay LocalTZA d) (base + Z.of_nat 0 + Z.of_nat 42));
      cbn [andb]; subst base; lia.
Qed.

(** ** calendar-scheduler.tsx: selection *)

(** C3. If [disabledDates] rejects the date, or no slot of the slot list
    in use is available on it, [handleDateSelect] leaves the state as it
    is and calls nothing; for every other date the new state has that date
    selected and no time selected, and [onDateChange] (when supplied) is
    called once, with that date. *)
Theorem handleDateSelect_spec (LocalTZA : Z) (p : CalendarSchedulerProps)
    (st : SchedulerState) (d : Date) :
  let slots := match timeSlots p with
               | Some (s :: l) => s :: l
               | _ => defaultTimeSlots
               end in
  let blocked :=
    (exists f, disabledDates p = Some f /\ f d = true) \/
    (forall slot, In slot slots -> getTimeSlotAvailability d slot = false) in
  slotsToUse p = slots /\
  (blocked -> handleDateSelect p st d = (st, [])) /\
  (~ blocked ->
   handleDateSelect p st d
   = ({| currentMonth := currentMonth st;
         selectedDate := Some d;
         selectedTime := None |},
      if onDateChange p then [CallOnDateChange (Some d)] else [])).
Proof.
  intros slots blocked.
  assert (Hs : slotsToUse p = slots).
  { unfold slotsToUse, slots. destruct (timeSlots p) as [[|s l]|]; reflexivity. }
  split; [exact Hs|].
  unfold handleDateSelect, isExternallyDisabled, hasAvailableSlots. rewrite Hs.
  assert (Hex : existsb (fun slot => getTimeSlotAvailability d slot) slots = false
                <-> forall slot, In slot slots -> getTimeSlotAvailability d slot = false).
  { rewrite <- not_true_iff_false, existsb_exists. split.
    - intros H slot Hin. apply not_true_iff_false. intros E. apply H. eauto.
    - intros H (slot & Hin & E). rewrite (H slot Hin) in E. discriminate. }
  split.
  - intros [(f & Hf & Hd)|Hnone].
    + rewrite Hf, Hd. reflexivity.
    + apply Hex in Hnone. rewrite Hnone.
      destruct (disabledDates p) as [f|]; [destruct (f d)|]; reflexivity.
  - intros Hnb.
    assert (Hdis : match disabledDates p with Some f => f d | None => false end = false).
    { destruct (disabledDates p) as [f|] eqn:Ef; [|reflexivity].
      destruct (f d) eqn:Efd; [|reflexivity].
      exfalso. apply Hnb. left. eauto. }
    rewrite Hdis.
    destruct (existsb (fun slot => getTimeSlotAvailability d slot) slots) eqn:Ee.
    + reflexivity.
    + exfalso. apply Hnb. right. now apply Hex.
Qed.

Lemma handleDateSelect_calls (p : CalendarSchedulerProps) (st : SchedulerState)
    (d : Date) :
  Forall completeSelection (snd (handleDateSelect p st d)).
Proof.
  unfold handleDateSelect.
  destruct (isExternallyDisabled p d); [constructor|].
  destruct (negb (hasAvailableSlots d (slotsToUse p))); [constructor|].
  cbn [snd]. destruct (onDateChange p); repeat constructor.
Qed.

(** Each user event calls [onConfirm] with a complete selection only. *)
Lemma step_calls (LocalTZA : Z) (p : CalendarSchedulerProps) (st : SchedulerState)
    (e : UserEvent) :
  Forall completeSelection (snd (step LocalTZA p st e)).
Proof.
  destruct e as [now index|slot| | |now|]; cbn [step].
  - destruct (gridDays LocalTZA st) as [days|]; [|constructor].
    destruct (nth_error days index) as [day|]; [|constructor].
    destruct (dayButtonDisabled LocalTZA p st now day); [constructor|].
    apply handleDateSelect_calls.
  - destruct (selectedDate st) as [date|]; [|constructor].
    match goal with |- context [if ?b then _ else _] => destruct b end;
      [|constructor].
    destruct (getTimeSlotAvailability date slot); constructor.
  - constructor.
  - constructor.
  - constructor.
  - unfold confirmDisabled, truthyDate, truthyString.
    destruct (selectedDate st) as [d|]; [|constructor].
    destruct (selectedTime st) as [[|c t]|]; try constructor.
    cbn [negb orb snd]. destruct (onConfirm p); repeat constructor.
Qed.

(** C10. [onConfirm] never receives a partial selection: whatever the
    user does, starting from the initial state, every call of [onConfirm]
    carries a date and a (non-empty) time; and in the state reached the
    confirm button is enabled only if both are selected. *)
Theorem onConfirm_complete (LocalTZA : Z) (p : CalendarSchedulerProps)
    (now1 now2 : Date) (es : list UserEvent) :
  Forall completeSelection
    (snd (run LocalTZA p (initialState now1 now2) es)) /\
  (let st := fst (run LocalTZA p (initialState now1 now2) es) in
   if confirmDisabled st then True
   else exists d c t, selectedDate st = Some d /\ selectedTime st = Some (c :: t)).
Proof.
  generalize (initialState now1 now2). intros st. split.
  - revert st. induction es as [|e es IH]; intros st; cbn [run].
    + constructor.
    + pose proof (step_calls LocalTZA p st e) as Hs.
      destruct (step LocalTZA p st e) as [st1 out1].
      specialize (IH st1). destruct (run LocalTZA p st1 es) as [st2 out2].
      cbn [snd] in *. apply Forall_app. split; assumption.
  - cbv zeta. generalize (fst (run LocalTZA p st es)). intros s.
    unfold confirmDisabled, truthyDate, truthyString.
    destruct (selectedDate s) as [d|]; [|exact I].
    destruct (selectedTime s) as [[|c t]|]; try exact I.
    cbn [negb orb]. eauto.
Qed.

(** ** NewAppointmentForm.tsx *)

Ltac run_handler :=
  cbv [bind ret tryCatch tryFinally getState setState emit request await].

Lemma missingField_iff (s : NewAppointmentForm.FormState) :
  NewAppointmentForm.missingField s = true <->
  NewAppointmentForm.date s = None \/ NewAppointmentForm.time s = [] \/
  NewAppointmentForm.serviceId s = [] \/ NewAppointmentForm.patientName s = [] \/
  NewAppointmentForm.patientPhone s = [].
Proof.
  unfold NewAppointmentForm.missingField, truthyDate, truthy.
  destruct (NewAppointmentForm.date s); destruct (NewAppointmentForm.time s);
    destruct (NewAppointmentForm.serviceId s);
    destruct (NewAppointmentForm.patientName s);
    destruct (NewAppointmentForm.patientPhone s); cbn;
    intuition (congruence || discriminate).
Qed.

(** C4. When the date is missing, or the time, the service, the name or
    the phone of the patient is empty, [handleSubmit] completes with the
    form state unchanged, no request to the API (the server is untouched
    and the log gains no request), and one error notification. *)
Theorem handleSubmit_missing_field (Server : Type) (api : ApiClient Server)
    (dentistId : JSString) (e : bool)
    (w : World Server NewAppointmentForm.FormState) :
  NewAppointmentForm.date (ui w) = None \/ NewAppointmentForm.time (ui w) = [] \/
  NewAppointmentForm.serviceId (ui w) = [] \/
  NewAppointmentForm.patientName (ui w) = [] \/
  NewAppointmentForm.patientPhone (ui w) = [] ->
  exists w',
    NewAppointmentForm.handleSubmit Server api dentistId e w = (Normal tt, w') /\
    ui w' = ui w /\ server w' = server w /\
    log w' = log w ++ (if e then [PreventDefault] else [])
               ++ [ToastError MsgRequiredFields] /\
    filter isApi (log w') = filter isApi (log w).
Proof.
  intros H%missingField_iff.
  unfold NewAppointmentForm.handleSubmit. run_handler.
  destruct e; cbn [ui server log]; rewrite H;
    destruct (NewAppointmentForm.date (ui w));
    (eexists; split; [reflexivity|]; cbn [ui server log];
     repeat split; rewrite <- ?app_assoc, ?filter_app; cbn;
     rewrite ?app_nil_r; reflexivity).
Qed.

Lemma handleSubmit_missing_field_witness :
  exists w',
    NewAppointmentForm.handleSubmit unit unreachableApi (js "d1") true
      (freshWorld tt (NewAppointmentForm.initialForm 0)) = (Normal tt, w') /\
    ui w' = NewAppointmentForm.initialForm 0 /\ server w' = tt /\
    log w' = [PreventDefault; ToastError MsgRequiredFields] /\
    filter isApi (log w') = [].
Proof.
  apply (handleSubmit_missing_field unit unreachableApi (js "d1") true
           (freshWorld tt (NewAppointmentForm.initialForm 0))).
  right. left. reflexivity.
Defined.

(** *** Errors of the API client *)

Ltac finish_completes :=
  eexists; split;
  [ eexists; split; [reflexivity|]; cbn [ui server log];
    rewrite <- ?app_assoc; try reflexivity;
    rewrite <- (app_nil_r (log _)) at 1; reflexivity
  | ].

Ltac surfaced :=
  let r := fresh "r" in let Hr := fresh "Hr" in
  intros [r Hr]; cbn in Hr;
  first [ exfalso; intuition discriminate
        | eexists; cbn; eauto 12 ].

Lemma loadDentist_completes (Server : Type) (api : ApiClient Server)
    (dentistId : JSString) (w : World Server NewAppointmentForm.FormState) :
  exists new,
    completes (NewAppointmentForm.loadDentist Server api dentistId) w new /\
    new = [Api (GetDentist dentistId)
             (isResolved (fst (api_getDentist Server api dentistId (server w))))].
Proof.
  unfold NewAppointmentForm.loadDentist, completes. run_handler.
  destruct (api_getDentist Server api dentistId (server w)) as [[d|e] s];
    cbn [ui server log fst isResolved]; finish_completes; reflexivity.
Qed.

Lemma loadAvailableSlots_completes (Server : Type) (api : ApiClient Server)
    (w : World Server NewAppointmentForm.FormState) :
  exists new,
    completes (NewAppointmentForm.loadAvailableSlots Server api) w new /\
    noToast new /\
    ((exists r, In (Api r false) new) -> In ConsoleError new).
Proof.
  unfold NewAppointmentForm.loadAvailableSlots, completes. run_handler.
  destruct (NewAppointmentForm.date (ui w)) as [date|];
    destruct (NewAppointmentForm.dentist (ui w)) as [dentist|];
    try (finish_completes; split; [reflexivity|intros [r []]]).
  destruct (api_getAvailableSlots Server api (dentist_id dentist) date (server w))
    as [[slots|e] s];
    cbn [ui server log fst isResolved]; finish_completes;
    (split; [reflexivity|]).
  - intros [r Hr]. cbn in Hr. exfalso. intuition discriminate.
  - intros _. cbn. auto.
Qed.

Lemma handleSubmit_completes (Server : Type) (api : ApiClient Server)
    (dentistId : JSString) (e : bool)
    (w : World Server NewAppointmentForm.FormState) :
  exists new,
    completes (NewAppointmentForm.handleSubmit Server api dentistId e) w new /\
    errorsSurfaced new.
Proof.
  unfold NewAppointmentForm.handleSubmit, completes. run_handler.
  destruct e; cbn [ui server log];
    (destruct (NewAppointmentForm.date (ui w)) as [d|];
     [ destruct (NewAppointmentForm.missingField (ui w)) | ];
     cbn [ui server log];
     try (finish_completes; surfaced));
    (destruct (api_getPatients Server api dentistId (server w)) as [[ps|err] s1];
     cbn [ui server log isResolved]; try (finish_completes; surfaced));
    (destruct (find _ ps) as [pt|]; cbn [ui server log];
     [ | match goal with
         | |- context [api_createPatient ?S ?a ?i ?n ?p ?m ?s] =>
             destruct (api_createPatient S a i n p m s) as [[[pt|]|err] s2]
         end; cbn [ui server log isResolved];
         try (finish_completes; surfaced) ]);
    match goal with
    | |- context [api_createAppointment ?S ?a ?x ?s] =>
        destruct (api_createAppointment S a x s) as [[u|err] s3]
    end; cbn [ui server log isResolved]; finish_completes; surfaced.
Qed.

(** ** AppointmentsPage.tsx *)

Lemma loadAppointments_completes (Server : Type) (api : ApiClient Server)
    (dentist : option Dentist) (w : World Server AppointmentsPage.PageState) :
  exists new,
    completes (AppointmentsPage.loadAppointments Server api dentist) w new /\
    errorsSurfaced new.
Proof.
  unfold AppointmentsPage.loadAppointments, AppointmentsPage.loadAppointments_start,
    AppointmentsPage.loadAppointments_resume, completes.
  run_handler.
  destruct dentist as [d|]; [|finish_completes; surfaced].
  destruct (api_getAppointments Server api (dentist_id d) (server w)) as [[a|e1] s1];
    cbn [ui server log isResolved];
    destruct (api_getPatients Server api (dentist_id d) s1) as [[ps|e2] s2];
    cbn [ui server log isResolved promiseAll2];
    finish_completes; surfaced.
Qed.

(** What [handleStatusChange] does when a dentist is signed in, in full:
    the final state, the server and the log, by the outcome of the update
    request and of the two requests of the reload. *)
Lemma handleStatusChange_run (Server : Type) (api : ApiClient Server)
    (d : Dentist) (id newStatus : JSString)
    (w : World Server AppointmentsPage.PageState) :
  let optimistic := AppointmentsPage.changeStatus id newStatus in
  let '(update, s1) :=
    api_updateAppointment Server api id newStatus (dentist_id d) (server w) in
  let '(appts, s2) := api_getAppointments Server api (dentist_id d) s1 in
  let '(pats, s3) := api_getPatients Server api (dentist_id d) s2 in
  let reload :=
    [Api (GetAppointments (dentist_id d)) (isResolved appts);
     Api (GetPatients (dentist_id d)) (isResolved pats)] in
  AppointmentsPage.handleStatusChange Server api (Some d) id newStatus w
  = (Normal tt,
     {| ui :=
          {| AppointmentsPage.appointments :=
               match appts, pats with
               | Resolved a, Resolved _ => a
               | _, _ => optimistic (AppointmentsPage.appointments (ui w))
               end;
             AppointmentsPage.patients :=
               match appts, pats with
               | Resolved _, Resolved p => p
               | _, _ => AppointmentsPage.patients (ui w)
               end;
             AppointmentsPage.filteredAppointments :=
               optimistic (AppointmentsPage.filteredAppointments (ui w));
             AppointmentsPage.filter := AppointmentsPage.filter (ui w);
             AppointmentsPage.isLoading := false |};
        server := s3;
        log :=
          log w
          ++ [Api (UpdateAppointment id newStatus (dentist_id d)) (isResolved update)]
          ++ (if isResolved update
              then ToastSuccess MsgStatusUpdated :: reload
              else reload ++ [ToastError MsgStatusUpdate])
          ++ (if isResolved appts && isResolved pats
              then []
              else [ToastError MsgLoadAppointments]) |}).
Proof.
  cbv zeta.
  unfold AppointmentsPage.handleStatusChange, AppointmentsPage.handleStatusChange_start,
    AppointmentsPage.handleStatusChange_resume, AppointmentsPage.loadAppointments_start,
    AppointmentsPage.loadAppointments_resume.
  run_handler. cbn [ui server log].
  destruct (api_updateAppointment Server api id newStatus (dentist_id d) (server w))
    as [[u|e0] s1];
    cbn [ui server log isResolved];
    destruct (api_getAppointments Server api (dentist_id d) s1) as [[a|e1] s2];
    cbn [ui server log isResolved];
    destruct (api_getPatients Server api (dentist_id d) s2) as [[ps|e2] s3];
    cbn [ui server log isResolved promiseAll2 andb fst snd
           AppointmentsPage.setAppointments AppointmentsPage.setPatients
           AppointmentsPage.setFilteredAppointments AppointmentsPage.setIsLoading
           AppointmentsPage.appointments AppointmentsPage.patients
           AppointmentsPage.filteredAppointments AppointmentsPage.filter
           AppointmentsPage.isLoading];
    rewrite <- ?app_assoc; cbn [app]; rewrite ?app_nil_r; reflexivity.
Qed.

Lemma handleStatusChange_completes (Server : Type) (api : ApiClient Server)
    (dentist : option Dentist) (id newStatus : JSString)
    (w : World Server AppointmentsPage.PageState) :
  exists new,
    completes (AppointmentsPage.handleStatusChange Server api dentist id newStatus)
      w new /\
    errorsSurfaced new.
Proof.
  destruct dentist as [d|].
  - pose proof (handleStatusChange_run Server api d id newStatus w) as H.
    cbv zeta in H. unfold completes.
    destruct (api_updateAppointment Server api id newStatus (dentist_id d) (server w))
      as [[u|e0] s1];
      destruct (api_getAppointments Server api (dentist_id d) s1) as [[a|e1] s2];
      destruct (api_getPatients Server api (dentist_id d) s2) as [[ps|e2] s3];
      rewrite H; cbn [isResolved andb];
      (eexists; split; [eexists; split; [reflexivity|cbn [log]; reflexivity]|]);
      surfaced.
  - unfold AppointmentsPage.handleStatusChange, completes. run_handler.
    finish_completes; surfaced.
Qed.


(** C5 (as amended). Every handler that calls the API client completes
    normally whatever the client answers, so every error is caught where
    the call is made.  A rejected call made by [handleSubmit],
    [loadAppointments] or [handleStatusChange] is followed by an error
    notification; a rejected [getDentist] leaves no trace but the request,
    and a rejected [getAvailableSlots] is written to the console only:
    neither shows a notification. *)
Theorem api_errors_caught (Server : Type) (api : ApiClient Server) :
  (forall dentistId w, exists new,
      completes (NewAppointmentForm.loadDentist Server api dentistId) w new /\
      noToast new) /\
  (forall w, exists new,
      completes (NewAppointmentForm.loadAvailableSlots Server api) w new /\
      noToast new /\
      ((exists r, In (Api r false) new) -> In ConsoleError new)) /\
  (forall dentistId e w, exists new,
      completes (NewAppointmentForm.handleSubmit Server api dentistId e) w new /\
      errorsSurfaced new) /\
  (forall dentist w, exists new,
      completes (AppointmentsPage.loadAppointments Server api dentist) w new /\
      errorsSurfaced new) /\
  (forall dentist id newStatus w, exists new,
      completes (AppointmentsPage.handleStatusChange Server api dentist id newStatus)
        w new /\
      errorsSurfaced new).
Proof.
  split; [|split; [|split; [|split]]].
  - intros dentistId w.
    destruct (loadDentist_completes Server api dentistId w) as (new & Hc & ->).
    eexists. split; [exact Hc|reflexivity].
  - apply loadAvailableSlots_completes.
  - intros. apply handleSubmit_completes.
  - intros. apply loadAppointments_completes.
  - intros. apply handleStatusChange_completes.
Qed.

(** C5 as stated fails: with the service down, the [getDentist] effect
    ends normally, its request is rejected and no notification is shown. *)
Lemma getDentist_error_not_surfaced :
  let w := freshWorld tt (NewAppointmentForm.initialForm 0) in
  let r := NewAppointmentForm.loadDentist unit unreachableApi (js "d1") w in
  fst r = Normal tt /\
  log (snd r) = [Api (GetDentist (js "d1")) false] /\
  ~ errorsSurfaced (log (snd r)).
Proof.
  cbv zeta. split; [reflexivity|]. split; [reflexivity|].
  intros H. destruct H as [m Hm].
  - exists (GetDentist (js "d1")). left. reflexivity.
  - cbn in Hm. destruct Hm as [Hm|[]]. discriminate Hm.
Qed.



(** *** applyFilter *)

Section SortFacts.

Context {A : Type} (cmp : A -> A -> Z).

Let le (a b : A) : Prop := cmp a b <= 0.

Lemma insertSorted_perm (x : A) (l : list A) :
  Permutation (AppointmentsPage.insertSorted cmp x l) (x :: l).
Proof.
  induction l as [|y r IH]; cbn [AppointmentsPage.insertSorted].
  - reflexivity.
  - destruct (cmp x y <=? 0); [reflexivity|].
    rewrite IH. apply perm_swap.
Qed.

Lemma sort_perm (l : list A) : Permutation (AppointmentsPage.sort cmp l) l.
Proof.
  induction l as [|x r IH]; cbn [AppointmentsPage.sort].
  - reflexivity.
  - rewrite insertSorted_perm. now constructor.
Qed.

Hypothesis le_total : forall a b, le a b \/ le b a.
Hypothesis le_trans : forall a b c, le a b -> le b c -> le a c.

Lemma insertSorted_sorted (x : A) (l : list A) :
  StronglySorted le l -> StronglySorted le (AppointmentsPage.insertSorted cmp x l).
Proof.
  induction 1 as [|y r Hr IH Hy]; cbn [AppointmentsPage.insertSorted].
  - repeat constructor.
  - destruct (Z.leb_spec (cmp x y) 0) as [Hxy|Hxy].
    + constructor; [now constructor|].
      constructor; [exact Hxy|].
      eapply Forall_impl; [|exact Hy]. intros z Hz. now apply (le_trans x y z).
    + constructor; [exact IH|].
      assert (Hyx : le y x) by (destruct (le_total x y); [unfold le in *; lia|assumption]).
      apply Forall_forall. intros z Hz.
      apply (Permutation_in _ (insertSorted_perm x r)) in Hz.
      destruct Hz as [<-|Hz]; [exact Hyx|].
      now apply (proj1 (Forall_forall _ _) Hy).
Qed.

Lemma sort_sorted (l : list A) : StronglySorted le (AppointmentsPage.sort cmp l).
Proof.
  induction l as [|x r IH]; cbn [AppointmentsPage.sort].
  - constructor.
  - now apply insertSorted_sorted.
Qed.

End SortFacts.

Lemma StronglySorted_weaken {A : Type} (R R' : A -> A -> Prop) (l : list A) :
  (forall a b, R a b -> R' a b) -> StronglySorted R l -> StronglySorted R' l.
Proof.
  intros HR. induction 1 as [|x r Hr IH Hx]; constructor.
  - exact IH.
  - eapply Forall_impl; [|exact Hx]. intros; now apply HR.
Qed.

Lemma filter_true {A : Type} (l : list A) : filter (fun _ => true) l = l.
Proof. induction l as [|x r IH]; cbn [filter]; congruence. Qed.

Lemma applyFilter_eq (LocalTZA : Z) (localeCompare : JSString -> JSString -> Z)
    (now : Date) (s : AppointmentsPage.PageState) :
  AppointmentsPage.applyFilter LocalTZA localeCompare now s
  = AppointmentsPage.sort (AppointmentsPage.compareAppointments localeCompare)
      (filter (AppointmentsPage.keeps LocalTZA now (AppointmentsPage.filter s))
         (AppointmentsPage.appointments s)).
Proof.
  unfold AppointmentsPage.applyFilter, AppointmentsPage.keeps.
  destruct (AppointmentsPage.filter s); try reflexivity.
  f_equal. induction (AppointmentsPage.appointments s) as [|a l IH];
    cbn [filter]; congruence.
Qed.

(** C7. When [localeCompare] is a total preorder on strings, the list
    computed by [applyFilter] holds exactly the appointments that pass the
    filter (each as often as in the input): those of today for 'today',
    those after now for 'upcoming', those before now for 'past', all of
    them for 'all'; it is sorted by date, appointments of equal date by
    [localeCompare] of their times; and for 'all' it is a permutation of
    the input. *)
Theorem applyFilter_spec (LocalTZA : Z) (localeCompare : JSString -> JSString -> Z)
    (now : Date) (s : AppointmentsPage.PageState) :
  (forall a b, localeCompare a b <= 0 \/ localeCompare b a <= 0) ->
  (forall a b c, localeCompare a b <= 0 -> localeCompare b c <= 0 ->
                 localeCompare a c <= 0) ->
  let result := AppointmentsPage.applyFilter LocalTZA localeCompare now s in
  Permutation result
    (filter (fun apt =>
               match AppointmentsPage.filter s with
               | AppointmentsPage.FilterToday => isSameDay LocalTZA (apt_date apt) now
               | AppointmentsPage.FilterUpcoming => now <? apt_date apt
               | AppointmentsPage.FilterPast => apt_date apt <? now
               | AppointmentsPage.FilterAll => true
               end)
       (AppointmentsPage.appointments s)) /\
  StronglySorted
    (fun a b => apt_date a < apt_date b \/
                (apt_date a = apt_date b /\
                 localeCompare (apt_time a) (apt_time b) <= 0))
    result /\
  (AppointmentsPage.filter s = AppointmentsPage.FilterAll ->
   Permutation result (AppointmentsPage.appointments s)).
Proof.
  intros Htotal Htrans result. subst result. rewrite applyFilter_eq.
  split; [|split].
  - rewrite sort_perm. unfold AppointmentsPage.keeps, AppointmentsPage.isToday,
      AppointmentsPage.isFuture, AppointmentsPage.isPast.
    destruct (AppointmentsPage.filter s); reflexivity.
  - apply (StronglySorted_weaken
             (fun a b => AppointmentsPage.compareAppointments localeCompare a b <= 0)).
    { intros a b. unfold AppointmentsPage.compareAppointments.
      destruct (Z.eqb_spec (apt_date a) (apt_date b)); cbn [negb]; intros; lia. }
    apply sort_sorted.
    + intros a b. unfold AppointmentsPage.compareAppointments.
      destruct (Z.eqb_spec (apt_date a) (apt_date b)) as [E|E];
        destruct (Z.eqb_spec (apt_date b) (apt_date a)) as [E'|E'];
        cbn [negb]; try lia.
      apply Htotal.
    + intros a b c. unfold AppointmentsPage.compareAppointments.
      destruct (Z.eqb_spec (apt_date a) (apt_date b)) as [E1|E1];
        destruct (Z.eqb_spec (apt_date b) (apt_date c)) as [E2|E2];
        destruct (Z.eqb_spec (apt_date a) (apt_date c)) as [E3|E3];
        cbn [negb]; try lia.
      apply Htrans.
  - intros HF. rewrite sort_perm, HF. cbn [AppointmentsPage.keeps].
    rewrite filter_true. reflexivity.
Qed.

Lemma codeUnitCompare_total (a b : JSString) :
  codeUnitCompare a b <= 0 \/ codeUnitCompare b a <= 0.
Proof.
  revert b. induction a as [|x a IH]; intros [|y b]; cbn [codeUnitCompare];
    try lia.
  destruct (Z.ltb_spec x y); destruct (Z.ltb_spec y x); try lia. apply IH.
Qed.

Lemma codeUnitCompare_trans (a b c : JSString) :
  codeUnitCompare a b <= 0 -> codeUnitCompare b c <= 0 -> codeUnitCompare a c <= 0.
Proof.
  revert b c. induction a as [|x a IH]; intros [|y b] [|z c];
    cbn [codeUnitCompare]; try lia.
  destruct (Z.ltb_spec x y); destruct (Z.ltb_spec y x);
    destruct (Z.ltb_spec y z); destruct (Z.ltb_spec z y);
    destruct (Z.ltb_spec x z); destruct (Z.ltb_spec z x); try lia.
  apply IH.
Qed.

Lemma applyFilter_spec_witness :
  let result := AppointmentsPage.applyFilter 0 codeUnitCompare 0 unsortedPage in
  Permutation result
    (filter (fun apt =>
               match AppointmentsPage.filter unsortedPage with
               | AppointmentsPage.FilterToday => isSameDay 0 (apt_date apt) 0
               | AppointmentsPage.FilterUpcoming => 0 <? apt_date apt
               | AppointmentsPage.FilterPast => apt_date apt <? 0
               | AppointmentsPage.FilterAll => true
               end)
       (AppointmentsPage.appointments unsortedPage)) /\
  StronglySorted
    (fun a b => apt_date a < apt_date b \/
                (apt_date a = apt_date b /\
                 codeUnitCompare (apt_time a) (apt_time b) <= 0))
    result /\
  (AppointmentsPage.filter unsortedPage = AppointmentsPage.FilterAll ->
   Permutation result (AppointmentsPage.appointments unsortedPage)).
Proof.
  exact (applyFilter_spec 0 codeUnitCompare 0 unsortedPage
           codeUnitCompare_total codeUnitCompare_trans).
Defined.

(** On the sample page the later appointment, listed first, is moved
    behind the earlier one. *)
Example applyFilter_sample :
  AppointmentsPage.applyFilter 0 codeUnitCompare 0 unsortedPage
  = [sampleAppointment; laterAppointment].
Proof. reflexivity. Qed.

(** ** calendar-scheduler.tsx: month navigation *)

(** The year and month shown after [n] days are added to [currentMonth]:
    those of the local day of [currentMonth] plus [n]. *)
Lemma shown_month_after (LocalTZA : Z) (d : Date) (n : Z) :
  let x := localDay LocalTZA d + n in
  getFullYear LocalTZA (startOfMonth LocalTZA (addDays LocalTZA d n)) = YearFromDay x /\
  getMonth LocalTZA (startOfMonth LocalTZA (addDays LocalTZA d n))
  = monthOfYearDay (leapDays (YearFromDay x)) (x - DayFromYear (YearFromDay x)).
Proof.
  cbv zeta.
  destruct (startOfMonth_fields LocalTZA (addDays LocalTZA d n)) as (Hy & Hm & _).
  rewrite Hy, Hm, getFullYear_localDay, getMonth_localDay, localDay_addDays.
  split; reflexivity.
Qed.

Lemma localDay_schedulerAt (LocalTZA : Z) (year month date : Z) :
  localDay LocalTZA (currentMonth (schedulerAt LocalTZA year month date))
  = MakeDay year month date.
Proof.
  unfold schedulerAt, initialState. cbn [currentMonth].
  apply localDay_UTC. vm_compute. split; [discriminate|reflexivity].
Qed.

(** C9 fails on the code.  In any time zone: with [currentMonth] on
    31 January 2025 the grid shows January 2025, and after
    [handleNextMonth] it shows March 2025, February is skipped; with
    [currentMonth] on 1 March 2025, after [handlePrevMonth] it shows
    January 2025. *)
Theorem month_navigation_skips_february (LocalTZA : Z) :
  let shown st :=
    (getFullYear LocalTZA (monthStart LocalTZA st),
     getMonth LocalTZA (monthStart LocalTZA st)) in
  shown (schedulerAt LocalTZA 2025 0 31) = (2025, 0) /\
  shown (handleNextMonth LocalTZA (schedulerAt LocalTZA 2025 0 31)) = (2025, 2) /\
  shown (schedulerAt LocalTZA 2025 2 1) = (2025, 2) /\
  shown (handlePrevMonth LocalTZA (schedulerAt LocalTZA 2025 2 1)) = (2025, 0).
Proof.
  cbv zeta. unfold monthStart, handleNextMonth, handlePrevMonth.
  cbn [currentMonth].
  pose proof (shown_month_after LocalTZA
                (currentMonth (schedulerAt LocalTZA 2025 0 31))) as H1.
  pose proof (shown_month_after LocalTZA
                (currentMonth (schedulerAt LocalTZA 2025 2 1))) as H2.
  cbv zeta in H1, H2. rewrite localDay_schedulerAt in H1, H2.
  repeat split.
  - destruct (H1 0) as [Hy Hm]. unfold addDays in Hy, Hm. cbn [Z.eqb] in Hy, Hm.
    rewrite Hy, Hm. reflexivity.
  - destruct (H1 32) as [Hy Hm]. rewrite Hy, Hm. reflexivity.
  - destruct (H2 0) as [Hy Hm]. unfold addDays in Hy, Hm. cbn [Z.eqb] in Hy, Hm.
    rewrite Hy, Hm. reflexivity.
  - destruct (H2 (-32)) as [Hy Hm]. rewrite Hy, Hm. reflexivity.
Qed.

(** * Further properties of the three sources *)

(** ** Months as an index *)

Lemma MakeDay_firstOfIndex (y k : Z) : MakeDay y k 1 = firstOfIndex (12 * y + k).
Proof.
  unfold firstOfIndex, MakeDay.
  replace (0 + (12 * y + k) / 12) with (y + k / 12) by lia_div.
  replace ((12 * y + k) mod 12) with (k mod 12) by lia_div.
  reflexivity.
Qed.

Lemma firstOfIndex_step (i : Z) :
  28 <= firstOfIndex (i + 1) - firstOfIndex i <= 31.
Proof.
  pose proof (DaysInMonth_range (i / 12) (i mod 12) ltac:(lia_div)) as H.
  unfold DaysInMonth in H. rewrite !MakeDay_firstOfIndex in H.
  replace (12 * (i / 12) + (i mod 12 + 1)) with (i + 1) in H by lia_div.
  replace (12 * (i / 12) + i mod 12) with i in H by lia_div.
  exact H.
Qed.

Lemma firstOfIndex_add (i : Z) (k : nat) :
  28 * Z.of_nat k <= firstOfIndex (i + Z.of_nat k) - firstOfIndex i <= 31 * Z.of_nat k.
Proof.
  induction k as [|k IH].
  - replace (i + Z.of_nat 0) with i by lia. lia.
  - pose proof (firstOfIndex_step (i + Z.of_nat k)) as H.
    replace (i + Z.of_nat (S k)) with (i + Z.of_nat k + 1) by lia. lia.
Qed.

Lemma firstOfIndex_le (i j : Z) : i <= j -> firstOfIndex i <= firstOfIndex j.
Proof.
  intros H. pose proof (firstOfIndex_add i (Z.to_nat (j - i))) as A.
  rewrite Z2Nat.id in A by lia. replace (i + (j - i)) with j in A by lia. lia.
Qed.

(** Every day lies in the month of its index. *)
Lemma dayIndex_bounds (x : Z) :
  firstOfIndex (dayIndex x) <= x < firstOfIndex (dayIndex x + 1).
Proof.
  pose proof (day_in_month x) as H. cbv zeta in H.
  unfold DaysInMonth in H. rewrite !MakeDay_firstOfIndex in H.
  unfold dayIndex.
  replace (12 * YearFromDay x
           + monthOfYearDay (leapDays (YearFromDay x)) (x - DayFromYear (YearFromDay x))
           + 1)
    with (12 * YearFromDay x
          + (monthOfYearDay (leapDays (YearFromDay x)) (x - DayFromYear (YearFromDay x))
             + 1)) by lia.
  lia.
Qed.

Lemma dayIndex_unique (x i : Z) :
  firstOfIndex i <= x < firstOfIndex (i + 1) -> dayIndex x = i.
Proof.
  intros H. pose proof (dayIndex_bounds x) as B.
  destruct (Z.lt_trichotomy (dayIndex x) i) as [L|[E|G]]; [|exact E|].
  - pose proof (firstOfIndex_le (dayIndex x + 1) i ltac:(lia)). lia.
  - pose proof (firstOfIndex_le (i + 1) (dayIndex x) ltac:(lia)). lia.
Qed.

Lemma monthIndex_dayIndex (LocalTZA : Z) (d : Date) :
  monthIndex LocalTZA d = dayIndex (localDay LocalTZA d).
Proof. reflexivity. Qed.

Lemma monthIndex_startOfMonth (LocalTZA : Z) (d : Date) :
  monthIndex LocalTZA (startOfMonth LocalTZA d) = monthIndex LocalTZA d.
Proof.
  unfold monthIndex.
  destruct (startOfMonth_fields LocalTZA d) as (Hy & Hm & _). now rewrite Hy, Hm.
Qed.

Lemma firstDay_firstOfIndex (LocalTZA : Z) (d : Date) :
  firstDay LocalTZA d = firstOfIndex (monthIndex LocalTZA d).
Proof. unfold firstDay, monthIndex. apply MakeDay_firstOfIndex. Qed.

Lemma getMonth_monthIndex (LocalTZA : Z) (d : Date) :
  getMonth LocalTZA d = monthIndex LocalTZA d mod 12.
Proof.
  unfold monthIndex. pose proof (MonthFromTime_range (LocalTime LocalTZA d)) as H.
  fold (getMonth LocalTZA d) in H. lia_div.
Qed.

Lemma DaysInMonth_index (LocalTZA : Z) (d : Date) (k : Z) :
  DaysInMonth (getFullYear LocalTZA d) (getMonth LocalTZA d + k)
  = firstOfIndex (monthIndex LocalTZA d + k + 1)
    - firstOfIndex (monthIndex LocalTZA d + k).
Proof.
  unfold DaysInMonth, monthIndex. rewrite !MakeDay_firstOfIndex.
  f_equal; f_equal; lia.
Qed.

Lemma getDate_index (LocalTZA : Z) (d : Date) :
  getDate LocalTZA d = localDay LocalTZA d - firstOfIndex (monthIndex LocalTZA d) + 1.
Proof.
  pose proof (firstDay_eq LocalTZA d) as H.
  rewrite firstDay_firstOfIndex in H. lia.
Qed.

(** ** calendar-scheduler.tsx: month navigation, in general *)

(** X1. [handleNextMonth] always moves the displayed month forward, by
    one month or by two: by one exactly when the date of [currentMonth]
    plus 32 still falls within this month and the next. *)
Theorem handleNextMonth_advance (LocalTZA : Z) (st : SchedulerState) :
  let cm := currentMonth st in
  let i := monthIndex LocalTZA (monthStart LocalTZA st) in
  let i' := monthIndex LocalTZA (monthStart LocalTZA (handleNextMonth LocalTZA st)) in
  let room := DaysInMonth (getFullYear LocalTZA cm) (getMonth LocalTZA cm)
              + DaysInMonth (getFullYear LocalTZA cm) (getMonth LocalTZA cm + 1) in
  i = monthIndex LocalTZA cm /\
  (i' = i + 1 \/ i' = i + 2) /\
  (i' = i + 1 <-> getDate LocalTZA cm + 32 <= room).
Proof.
  cbv zeta. unfold monthStart, handleNextMonth. cbn [currentMonth].
  set (cm := currentMonth st).
  rewrite !monthIndex_startOfMonth.
  pose proof (DaysInMonth_index LocalTZA cm 0) as L1.
  pose proof (DaysInMonth_index LocalTZA cm 1) as L2.
  rewrite !Z.add_0_r in L1. rewrite L1, L2, getDate_index.
  rewrite (monthIndex_dayIndex LocalTZA (addDays LocalTZA cm 32)), localDay_addDays.
  rewrite (monthIndex_dayIndex LocalTZA cm).
  set (x := localDay LocalTZA cm). set (i := dayIndex x).
  pose proof (dayIndex_bounds x) as B. fold i in B.
  pose proof (firstOfIndex_step i) as S0.
  pose proof (firstOfIndex_step (i + 1)) as S1.
  pose proof (firstOfIndex_step (i + 2)) as S2.
  replace (i + 1 + 1) with (i + 2) in * by lia.
  replace (i + 2 + 1) with (i + 3) in * by lia.
  split; [reflexivity|].
  destruct (Z.lt_ge_cases (x + 32) (firstOfIndex (i + 2))) as [C|C].
  - assert (E : dayIndex (x + 32) = i + 1).
    { apply dayIndex_unique. replace (i + 1 + 1) with (i + 2) by lia. lia. }
    rewrite E. split; [left; reflexivity|]. split; intros; lia.
  - assert (E : dayIndex (x + 32) = i + 2).
    { apply dayIndex_unique. replace (i + 2 + 1) with (i + 3) by lia. lia. }
    rewrite E. split; [right; reflexivity|]. split; intros; lia.
Qed.

(** X2. [handlePrevMonth] always moves the displayed month back, by one
    month or by two: by one exactly when the date of [currentMonth] plus
    the length of the previous month is more than 32. *)
Theorem handlePrevMonth_retreat (LocalTZA : Z) (st : SchedulerState) :
  let cm := currentMonth st in
  let i := monthIndex LocalTZA (monthStart LocalTZA st) in
  let i' := monthIndex LocalTZA (monthStart LocalTZA (handlePrevMonth LocalTZA st)) in
  (i' = i - 1 \/ i' = i - 2) /\
  (i' = i - 1 <->
   32 < getDate LocalTZA cm
        + DaysInMonth (getFullYear LocalTZA cm) (getMonth LocalTZA cm + -1)).
Proof.
  cbv zeta. unfold monthStart, handlePrevMonth. cbn [currentMonth].
  set (cm := currentMonth st).
  rewrite !monthIndex_startOfMonth.
  pose proof (DaysInMonth_index LocalTZA cm (-1)) as L1.
  rewrite L1, getDate_index.
  rewrite (monthIndex_dayIndex LocalTZA (addDays LocalTZA cm (-32))), localDay_addDays.
  rewrite (monthIndex_dayIndex LocalTZA cm).
  set (x := localDay LocalTZA cm). set (i := dayIndex x).
  pose proof (dayIndex_bounds x) as B. fold i in B.
  pose proof (firstOfIndex_step i) as S0.
  pose proof (firstOfIndex_step (i - 1)) as S1.
  pose proof (firstOfIndex_step (i - 2)) as S2.
  replace (i + -1 + 1) with i in * by lia.
  replace (i - 1 + 1) with i in * by lia.
  replace (i - 2 + 1) with (i - 1) in * by lia.
  replace (i + -1) with (i - 1) in * by lia.
  destruct (Z.lt_ge_cases (x + -32) (firstOfIndex (i - 1))) as [C|C].
  - assert (E : dayIndex (x + -32) = i - 2).
    { apply dayIndex_unique. replace (i - 2 + 1) with (i - 1) by lia. lia. }
    rewrite E. split; [right; reflexivity|]. split; intros; lia.
  - assert (E : dayIndex (x + -32) = i - 1).
    { apply dayIndex_unique. replace (i - 1 + 1) with i by lia. lia. }
    rewrite E. split; [left; reflexivity|]. split; intros; lia.
Qed.

(** Adding days shifts the time value by whole days. *)
Lemma addDays_shift (LocalTZA : Z) (d : Date) (n : Z) :
  addDays LocalTZA d n = d + n * msPerDay.
Proof.
  unfold addDays. destruct (Z.eqb_spec n 0) as [->|_]; [lia|].
  unfold setDate, getDate. rewrite MakeDay_fields.
  generalize (DateFromTime (LocalTime LocalTZA d)). intros dt.
  unfold UTC, MakeDate, LocalTime, Day, TimeWithinDay, msPerDay. lia_div.
Qed.

(** X3. The two navigation handlers undo each other: previous after
    next, and next after previous, give back the state. *)
Theorem month_navigation_round_trip (LocalTZA : Z) (st : SchedulerState) :
  handlePrevMonth LocalTZA (handleNextMonth LocalTZA st) = st /\
  handleNextMonth LocalTZA (handlePrevMonth LocalTZA st) = st.
Proof.
  unfold handlePrevMonth, handleNextMonth. cbn [currentMonth selectedDate selectedTime].
  rewrite !addDays_shift. destruct st as [cm sd stime]. cbn [currentMonth selectedDate selectedTime].
  split; f_equal; lia.
Qed.

(** ** calendar-scheduler.tsx: the cells of the grid *)

(** The cells as local day numbers, by position. *)
Lemma gridDays_nth (LocalTZA : Z) (st : SchedulerState) :
  exists days,
    gridDays LocalTZA st = Some days /\
    List.length days = 42%nat /\
    forall i, (i < 42)%nat ->
      localDay LocalTZA (nth i days 0)
      = firstDay LocalTZA (currentMonth st)
        - getDay LocalTZA (monthStart LocalTZA st) + Z.of_nat i.
Proof.
  destruct (gridDays_localDays LocalTZA st) as (days & Hg & Hdays).
  exists days. split; [exact Hg|].
  assert (Hlen : List.length days = 42%nat).
  { rewrite <- (length_map (localDay LocalTZA)), Hdays, length_map, length_seq.
    reflexivity. }
  split; [exact Hlen|]. intros i Hi.
  set (base := firstDay LocalTZA (currentMonth st)
               - getDay LocalTZA (monthStart LocalTZA st)) in *.
  rewrite <- (map_nth (localDay LocalTZA)), Hdays.
  rewrite (nth_indep _ _ (base + Z.of_nat 0)) by (rewrite length_map, length_seq; lia).
  rewrite (map_nth (fun i => base + Z.of_nat i)), seq_nth by lia. reflexivity.
Qed.

(** The cells of the displayed month are the local midnights of its days. *)
Lemma gridDays_month_cells (LocalTZA : Z) (st : SchedulerState) :
  exists days,
    gridDays LocalTZA st = Some days /\
    forall j,
      0 <= j < DaysInMonth (getFullYear LocalTZA (currentMonth st))
                 (getMonth LocalTZA (currentMonth st)) ->
      nth (Z.to_nat (getDay LocalTZA (monthStart LocalTZA st) + j)) days 0
      = UTC LocalTZA ((firstDay LocalTZA (currentMonth st) + j) * msPerDay).
Proof.
  set (cm := currentMonth st).
  pose proof (DaysInMonth_range (getFullYear LocalTZA cm) (getMonth LocalTZA cm)
                (MonthFromTime_range _)) as HL.
  pose proof (getDay_range LocalTZA (monthStart LocalTZA st)) as Hf.
  unfold gridDays.
  unfold monthStart at 1, monthEnd at 1. fold cm.
  rewrite calendarDays_spec.
  set (L := DaysInMonth (getFullYear LocalTZA cm) (getMonth LocalTZA cm)) in *.
  set (f := getDay LocalTZA (monthStart LocalTZA st)) in *.
  unfold arrayInit at 1.
  destruct (Z.ltb_spec f 0) as [?|_]; [lia|].
  rewrite length_app, !length_map, !length_seq.
  unfold arrayInit.
  destruct (Z.ltb_spec (42 - Z.of_nat (Z.to_nat f + Z.to_nat L)) 0) as [?|_]; [lia|].
  eexists. split; [reflexivity|]. intros j Hj.
  rewrite <- app_assoc.
  rewrite app_nth2 by (rewrite length_map, length_seq; lia).
  rewrite length_map, length_seq.
  rewrite app_nth1 by (rewrite length_map, length_seq; lia).
  replace (Z.to_nat (f + j) - Z.to_nat f)%nat with (Z.to_nat j) by lia.
  rewrite (nth_indep _ _ (UTC LocalTZA ((firstDay LocalTZA cm + Z.of_nat 0) * msPerDay)))
    by (rewrite length_map, length_seq; lia).
  rewrite (map_nth (fun i => UTC LocalTZA ((firstDay LocalTZA cm + Z.of_nat i) * msPerDay))).
  rewrite seq_nth by lia. cbn [plus]. rewrite Z2Nat.id by lia. reflexivity.
Qed.

Lemma getDay_localDay (LocalTZA : Z) (d : Date) :
  getDay LocalTZA d = (localDay LocalTZA d + 4) mod 7.
Proof. reflexivity. Qed.

(** X4. Every cell of the grid sits under its weekday: the cell at
    position [i] is a day whose [getDay] is [i mod 7], so each row runs
    from Sunday to Saturday, as the header does. *)
Theorem gridDays_weekdays (LocalTZA : Z) (st : SchedulerState) :
  exists days,
    gridDays LocalTZA st = Some days /\
    forall i, (i < 42)%nat -> getDay LocalTZA (nth i days 0) = Z.of_nat i mod 7.
Proof.
  destruct (gridDays_nth LocalTZA st) as (days & Hg & _ & Hnth).
  exists days. split; [exact Hg|]. intros i Hi.
  rewrite getDay_localDay, (Hnth i Hi).
  rewrite (getDay_localDay LocalTZA (monthStart LocalTZA st)).
  unfold monthStart. rewrite localDay_startOfMonth.
  generalize (firstDay LocalTZA (currentMonth st)). intros F. lia_div.
Qed.

(** The cells of the displayed month, by position. *)
Lemma gridDays_in_month (LocalTZA : Z) (st : SchedulerState) (days : list Date)
    (i : nat) :
  gridDays LocalTZA st = Some days -> (i < 42)%nat ->
  (getMonth LocalTZA (nth i days 0) =? getMonth LocalTZA (currentMonth st))
  = (getDay LocalTZA (monthStart LocalTZA st) <=? Z.of_nat i)
    && (Z.of_nat i <? getDay LocalTZA (monthStart LocalTZA st)
          + DaysInMonth (getFullYear LocalTZA (currentMonth st))
              (getMonth LocalTZA (currentMonth st))).
Proof.
  intros Hg Hi.
  destruct (gridDays_nth LocalTZA st) as (days' & Hg' & _ & Hnth).
  assert (days' = days) by congruence. subst days'.
  pose proof (getDay_range LocalTZA (monthStart LocalTZA st)) as Hf.
  pose proof (DaysInMonth_index LocalTZA (currentMonth st) 0) as HL.
  rewrite !Z.add_0_r in HL. rewrite HL.
  rewrite !getMonth_monthIndex, (monthIndex_dayIndex LocalTZA (nth i days 0)).
  rewrite (Hnth i Hi), firstDay_firstOfIndex.
  set (I := monthIndex LocalTZA (currentMonth st)) in *.
  set (f := getDay LocalTZA (monthStart LocalTZA st)) in *.
  pose proof (firstOfIndex_step (I - 1)) as S0.
  pose proof (firstOfIndex_step I) as S1.
  pose proof (firstOfIndex_step (I + 1)) as S2.
  replace (I - 1 + 1) with I in S0 by lia.
  destruct (Z.leb_spec f (Z.of_nat i)) as [A|A];
    [destruct (Z.ltb_spec (Z.of_nat i) (f + (firstOfIndex (I + 1) - firstOfIndex I)))
       as [B|B]|]; cbn [andb].
  - rewrite (dayIndex_unique _ I) by lia. apply Z.eqb_refl.
  - rewrite (dayIndex_unique _ (I + 1)) by lia. apply Z.eqb_neq. lia_div.
  - rewrite (dayIndex_unique _ (I - 1))
      by (replace (I - 1 + 1) with I by lia; lia).
    apply Z.eqb_neq. lia_div.
Qed.

(** X5. A cell shows a day of the displayed month exactly when its
    position is one of the [DaysInMonth] positions from
    [getDay monthStart] on; the button of every other cell is disabled,
    whatever the props and the time. *)
Theorem gridDays_current_month (LocalTZA : Z) (st : SchedulerState) :
  let cm := currentMonth st in
  let f := getDay LocalTZA (monthStart LocalTZA st) in
  let L := DaysInMonth (getFullYear LocalTZA cm) (getMonth LocalTZA cm) in
  exists days,
    gridDays LocalTZA st = Some days /\
    forall i, (i < 42)%nat ->
      let inMonth := (f <=? Z.of_nat i) && (Z.of_nat i <? f + L) in
      (getMonth LocalTZA (nth i days 0) =? getMonth LocalTZA cm) = inMonth /\
      (forall p now,
          inMonth = false ->
          dayButtonDisabled LocalTZA p st now (nth i days 0) = true).
Proof.
  cbv zeta.
  destruct (gridDays_nth LocalTZA st) as (days & Hg & _ & _).
  exists days. split; [exact Hg|]. intros i Hi.
  pose proof (gridDays_in_month LocalTZA st days i Hg Hi) as Hm.
  split; [exact Hm|].
  intros p now Hout. unfold dayButtonDisabled. rewrite Hm, Hout. reflexivity.
Qed.

(** ** calendar-scheduler.tsx: what can be selected *)

Lemma hasAvailableSlots_date (date : Date) (slots : list JSString) :
  hasAvailableSlots date slots = true -> getDateAvailability date = true.
Proof.
  unfold hasAvailableSlots. intros (slot & _ & H)%existsb_exists.
  unfold getTimeSlotAvailability in H.
  destruct (getDateAvailability date); [reflexivity|discriminate H].
Qed.

Lemma enabled_day (LocalTZA : Z) (p : CalendarSchedulerProps)
    (st : SchedulerState) (now day : Date) :
  if dayButtonDisabled LocalTZA p st now day then True
  else
    getMonth LocalTZA day = getMonth LocalTZA (currentMonth st) /\
    isBefore day (today LocalTZA now) = false /\
    isExternallyDisabled p day = false /\
    hasAvailableSlots day (slotsToUse p) = true /\
    handleDateSelect p st day
    = ({| currentMonth := currentMonth st;
          selectedDate := Some day;
          selectedTime := None |},
       if onDateChange p then [CallOnDateChange (Some day)] else []).
Proof.
  unfold dayButtonDisabled, handleDateSelect.
  destruct (Z.eqb_spec (getMonth LocalTZA day) (getMonth LocalTZA (currentMonth st)))
    as [Hm|Hm]; cbn [andb negb orb]; [|exact I].
  destruct (isBefore day (today LocalTZA now)); cbn [andb negb orb];
    [destruct (isExternallyDisabled p day); exact I|].
  destruct (isExternallyDisabled p day); cbn [andb negb orb]; [exact I|].
  destruct (hasAvailableSlots day (slotsToUse p)); cbn [andb negb orb]; [|exact I].
  repeat split; assumption.
Qed.

(** X6. The button of a day and [handleDateSelect]: when the button is
    enabled at the render, the day is of the displayed month, not before
    today, accepted by [disabledDates] as it answered at the render, and
    has an available slot.  On the click the availability guard of
    [handleDateSelect] never fires: the day is selected unless
    [disabledDates], asked again at the click, now rejects it (the form's
    [d < new Date()] does once the clock has passed the cell).  With a
    [disabledDates] that answers as at the render, the click always
    selects the day. *)
Theorem enabled_day_is_selected (LocalTZA : Z) (p : CalendarSchedulerProps)
    (st : SchedulerState) (now day : Date) (atClick : option (Date -> bool)) :
  if dayButtonDisabled LocalTZA p st now day then True
  else
    getMonth LocalTZA day = getMonth LocalTZA (currentMonth st) /\
    isBefore day (today LocalTZA now) = false /\
    isExternallyDisabled p day = false /\
    hasAvailableSlots day (slotsToUse p) = true /\
    handleDateSelect (withDisabledDates p atClick) st day
    = (if isExternallyDisabled (withDisabledDates p atClick) day
       then (st, [])
       else ({| currentMonth := currentMonth st;
                selectedDate := Some day;
                selectedTime := None |},
             if onDateChange p then [CallOnDateChange (Some day)] else [])) /\
    handleDateSelect p st day
    = ({| currentMonth := currentMonth st;
          selectedDate := Some day;
          selectedTime := None |},
       if onDateChange p then [CallOnDateChange (Some day)] else []).
Proof.
  pose proof (enabled_day LocalTZA p st now day) as H.
  destruct (dayButtonDisabled LocalTZA p st now day); [exact I|].
  destruct H as (Hm & Hb & Hd & Hs & Hsel).
  repeat (split; [assumption|]). split; [|exact Hsel].
  unfold handleDateSelect.
  assert (E : slotsToUse (withDisabledDates p atClick) = slotsToUse p) by reflexivity.
  rewrite E, Hs. cbn [negb withDisabledDates onDateChange].
  destruct (isExternallyDisabled (withDisabledDates p atClick) day); reflexivity.
Qed.

(** X7. A fully booked day cannot be picked: when [getDateAvailability]
    is false, no slot of any list is available on the day, its button is
    disabled and [handleDateSelect] leaves the state alone. *)
Theorem fully_booked_day_unselectable (LocalTZA : Z) (p : CalendarSchedulerProps)
    (st : SchedulerState) (now day : Date) :
  if getDateAvailability day then True
  else
    (forall slots, hasAvailableSlots day slots = false) /\
    dayButtonDisabled LocalTZA p st now day = true /\
    handleDateSelect p st day = (st, []).
Proof.
  destruct (getDateAvailability day) eqn:E; [exact I|].
  assert (H : forall slots, hasAvailableSlots day slots = false).
  { intros slots. destruct (hasAvailableSlots day slots) eqn:Hs; [|reflexivity].
    apply hasAvailableSlots_date in Hs. congruence. }
  split; [exact H|].
  unfold dayButtonDisabled, handleDateSelect. rewrite H.
  rewrite !andb_false_r. cbn [negb orb].
  destruct (isExternallyDisabled p day); split; reflexivity.
Qed.

Lemma step_keeps_time (LocalTZA : Z) (p : CalendarSchedulerProps)
    (st : SchedulerState) (e : UserEvent) :
  timeBelongsToDate p st ->
  timeBelongsToDate p (fst (step LocalTZA p st e)) /\
  Forall (selectableCall p) (snd (step LocalTZA p st e)).
Proof.
  intros Inv. destruct e as [now index|slot| | |now|]; cbn [step].
  - destruct (gridDays LocalTZA st) as [days|]; [|split; [exact Inv|constructor]].
    destruct (nth_error days index) as [day|]; [|split; [exact Inv|constructor]].
    pose proof (enabled_day LocalTZA p st now day) as H.
    destruct (dayButtonDisabled LocalTZA p st now day); [split; [exact Inv|constructor]|].
    destruct H as (_ & _ & Hd & Hs & ->). cbn [fst snd]. split; [exact I|].
    destruct (onDateChange p); repeat constructor; assumption.
  - destruct (selectedDate st) as [date|] eqn:Ed; [|split; [exact Inv|constructor]].
    match goal with
    | |- context [if ?b then _ else _] =>
        destruct b eqn:Eb; [|split; [exact Inv|constructor]]
    end.
    destruct (getTimeSlotAvailability date slot) eqn:Ea; [|split; [exact Inv|constructor]].
    cbn [fst snd]. split; [|constructor].
    unfold timeBelongsToDate. cbn [selectedTime selectedDate].
    split; [exact Ea|].
    apply existsb_exists in Eb. destruct Eb as (s & Hin & Hs).
    destruct (list_eq_dec Z.eq_dec s slot) as [<-|]; [exact Hin|discriminate].
  - split; [exact Inv|constructor].
  - split; [exact Inv|constructor].
  - split; [exact I|constructor].
  - split; [destruct (confirmDisabled st); exact Inv|].
    unfold confirmDisabled, truthyDate, truthyString.
    unfold timeBelongsToDate in Inv.
    destruct (selectedDate st) as [d|]; cbn [negb orb snd]; [|constructor].
    destruct (selectedTime st) as [[|c t]|]; cbn [negb orb snd]; try constructor.
    destruct (onConfirm p); repeat constructor; apply Inv.
Qed.

Lemma run_keeps_time (LocalTZA : Z) (p : CalendarSchedulerProps)
    (es : list UserEvent) (st : SchedulerState) :
  timeBelongsToDate p st ->
  timeBelongsToDate p (fst (run LocalTZA p st es)) /\
  Forall (selectableCall p) (snd (run LocalTZA p st es)).
Proof.
  revert st. induction es as [|e es IH]; intros st Inv; cbn [run].
  - split; [exact Inv|constructor].
  - destruct (step_keeps_time LocalTZA p st e Inv) as [I1 C1].
    destruct (step LocalTZA p st e) as [st1 out1]. cbn [fst snd] in I1, C1.
    destruct (IH st1 I1) as [I2 C2].
    destruct (run LocalTZA p st1 es) as [st2 out2]. cbn [fst snd] in *.
    split; [exact I2|]. apply Forall_app. split; assumption.
Qed.

(** X8. Whatever the user does from the initial state, every call of
    [onConfirm] carries a date together with a slot of the list in use
    that is available on that date, and every call of [onDateChange]
    carries a date (never [undefined]) that has an available slot and that
    [disabledDates] accepts. *)
Theorem callbacks_carry_selectable_values (LocalTZA : Z)
    (p : CalendarSchedulerProps) (now1 now2 : Date) (es : list UserEvent) :
  Forall (selectableCall p) (snd (run LocalTZA p (initialState now1 now2) es)).
Proof.
  apply run_keeps_time. exact I.
Qed.

(** ** The scheduler inside the form *)

Lemma midnight_not_before (LocalTZA D n : Z) :
  n <= UTC LocalTZA (D * msPerDay) ->
  localDay LocalTZA n < localDay LocalTZA (UTC LocalTZA (D * msPerDay)) \/
  UTC LocalTZA (D * msPerDay) = n.
Proof.
  unfold localDay, LocalTime, UTC, Day, msPerDay. intros H.
  destruct (Z.eq_dec (D * 86400000 - LocalTZA) n) as [E|E];
    [right; exact E|left]. lia_div.
Qed.

Lemma slot_in_use (slot : JSString) (slots : list JSString) :
  In slot slots ->
  existsb (fun s => if list_eq_dec Z.eq_dec s slot then true else false) slots = true.
Proof.
  intros H. apply existsb_exists. exists slot. split; [exact H|].
  destruct (list_eq_dec Z.eq_dec slot slot); [reflexivity|contradiction].
Qed.

(** X9. In the form, whose [disabledDates] rejects every date before
    now, no button of the grid is enabled for a day that has begun: an
    enabled cell is on a later local day than now (or is now itself, should
    now be exactly the local midnight of that day).  This bars the grid
    only: the scheduler opens with the present moment selected, and, with
    any props, a slot available at that moment can be chosen and confirmed
    at once, which hands today to [onConfirm]. *)
Theorem form_same_day_disabled (LocalTZA : Z) (s : NewAppointmentForm.FormState)
    (disabledNow : Date) (st : SchedulerState) (now : Date) :
  (exists days,
     gridDays LocalTZA st = Some days /\
     forall i, (i < 42)%nat ->
       if dayButtonDisabled LocalTZA (form_schedulerProps s disabledNow) st now
            (nth i days 0)
       then True
       else localDay LocalTZA disabledNow < localDay LocalTZA (nth i days 0) \/
            nth i days 0 = disabledNow) /\
  (forall (p : CalendarSchedulerProps) (now1 now2 : Date) (c : Z) (t : JSString),
      In (c :: t) (slotsToUse p) ->
      getTimeSlotAvailability now2 (c :: t) = true ->
      run LocalTZA p (initialState now1 now2) [ClickSlot (c :: t); ClickConfirm]
      = ({| currentMonth := now1;
            selectedDate := Some now2;
            selectedTime := Some (c :: t) |},
         if onConfirm p then [CallOnConfirm (Some now2) (Some (c :: t))] else [])).
Proof.
  split.
  - destruct (gridDays_month_cells LocalTZA st) as (days & Hg & Hcells).
    exists days. split; [exact Hg|]. intros i Hi.
    pose proof (enabled_day LocalTZA (form_schedulerProps s disabledNow) st now
                  (nth i days 0)) as He.
    destruct (dayButtonDisabled LocalTZA (form_schedulerProps s disabledNow) st now
                (nth i days 0)); [exact I|].
    destruct He as (Hm & _ & Hd & _).
    apply Z.eqb_eq in Hm. rewrite (gridDays_in_month LocalTZA st days i Hg Hi) in Hm.
    apply andb_true_iff in Hm. destruct Hm as [A%Z.leb_le B%Z.ltb_lt].
    pose proof (getDay_range LocalTZA (monthStart LocalTZA st)) as Hf.
    specialize (Hcells (Z.of_nat i - getDay LocalTZA (monthStart LocalTZA st))
                  ltac:(lia)).
    replace (getDay LocalTZA (monthStart LocalTZA st)
             + (Z.of_nat i - getDay LocalTZA (monthStart LocalTZA st)))
      with (Z.of_nat i) in Hcells by lia.
    rewrite Nat2Z.id in Hcells.
    assert (Hd' : (nth i days 0 <? disabledNow) = false) by exact Hd.
    apply Z.ltb_ge in Hd'. rewrite Hcells in Hd' |- *.
    now apply midnight_not_before.
  - intros p now1 now2 c t Hin Hav.
    cbn [run step initialState selectedDate selectedTime currentMonth].
    rewrite (slot_in_use _ _ Hin), Hav.
    cbn [confirmDisabled truthyDate truthyString negb orb selectedDate selectedTime
           currentMonth app].
    destruct (onConfirm p); reflexivity.
Qed.

Lemma isoDay_of_Day (t : Date) : isoDay t = isoDay (MakeDate (Day t) 0).
Proof.
  assert (E : Day (MakeDate (Day t) 0) = Day t)
    by (apply Day_MakeDate; unfold msPerDay; lia).
  unfold isoDay, DateFromTime, MonthFromTime, InLeapYear, DayWithinYear, YearFromTime.
  rewrite E. reflexivity.
Qed.

(** X10. The availability of a cell follows its UTC day, not its local
    day.  For the cells of the displayed month (local midnights): west of
    Greenwich or on it, the day string hashed is that of the day shown;
    east of it, it is the string of the day before. *)
Theorem availability_follows_utc_day (LocalTZA : Z) (st : SchedulerState) :
  exists days,
    gridDays LocalTZA st = Some days /\
    forall j,
      0 <= j < DaysInMonth (getFullYear LocalTZA (currentMonth st))
                 (getMonth LocalTZA (currentMonth st)) ->
      let cell := nth (Z.to_nat (getDay LocalTZA (monthStart LocalTZA st) + j)) days 0 in
      let shown := firstDay LocalTZA (currentMonth st) + j in
      localDay LocalTZA cell = shown /\
      (- msPerDay < LocalTZA <= 0 -> dateStr cell = isoDay (MakeDate shown 0)) /\
      (0 < LocalTZA <= msPerDay -> dateStr cell = isoDay (MakeDate (shown - 1) 0)).
Proof.
  destruct (gridDays_month_cells LocalTZA st) as (days & Hg & Hcells).
  exists days. split; [exact Hg|]. intros j Hj. cbv zeta.
  rewrite (Hcells j Hj).
  generalize (firstDay LocalTZA (currentMonth st) + j). intros D.
  split; [|split].
  - replace (D * msPerDay) with (MakeDate D 0) by (unfold MakeDate; lia).
    apply localDay_UTC. unfold msPerDay. lia.
  - intros Htz. rewrite dateStr_isoDay, isoDay_of_Day. do 2 f_equal.
    unfold UTC, Day, msPerDay in *. lia_div.
  - intros Htz. rewrite dateStr_isoDay, isoDay_of_Day. do 2 f_equal.
    unfold UTC, Day, msPerDay in *. lia_div.
Qed.

Lemma form_onCallback_keeps_date (p : CalendarSchedulerProps)
    (calls : list Callback) (s : NewAppointmentForm.FormState) :
  Forall (selectableCall p) calls ->
  (exists d, NewAppointmentForm.date s = Some d) ->
  exists d,
    NewAppointmentForm.date (fold_left (fun s c => form_onCallback c s) calls s)
    = Some d.
Proof.
  intros H. revert s. induction H as [|c calls Hc _ IH]; intros s Hs; cbn [fold_left].
  - exact Hs.
  - apply IH. destruct c as [[d|]|[d|] [t|]]; cbn in Hc; try contradiction.
    + exists d. reflexivity.
    + exists d. cbn [form_onCallback truthyDate].
      destruct (truthy t); reflexivity.
Qed.

(** X11. The scheduler never clears the date of the form: starting with
    the date the form opens with, after any session of the scheduler whose
    calls are handled by the form (Reset included, which calls nothing
    back) the form still has a date. *)
Theorem form_date_never_cleared (LocalTZA : Z) (p : CalendarSchedulerProps)
    (now now1 now2 : Date) (es : list UserEvent) :
  exists d,
    NewAppointmentForm.date
      (fold_left (fun s c => form_onCallback c s)
         (snd (run LocalTZA p (initialState now1 now2) es))
         (NewAppointmentForm.initialForm now))
    = Some d.
Proof.
  apply (form_onCallback_keeps_date p).
  - apply run_keeps_time. exact I.
  - exists now. reflexivity.
Qed.

(** ** NewAppointmentForm.tsx: a submission in full *)

Ltac finish_run :=
  eexists; split;
  [ eexists; split; [reflexivity|]; cbn [ui server log];
    rewrite <- ?app_assoc; try reflexivity;
    rewrite <- (app_nil_r (log _)) at 1; reflexivity
  | cbn [ui server log] ].



(** X14. An appointment booked through the form has no badge: every
    [createAppointment] request of [handleSubmit] carries the status
    ['scheduled'], the date, time and service of the form and the dentist
    of the props, and [getStatusBadge] has neither a variant nor a label
    for that status. *)
Theorem booked_appointment_has_no_badge (Server : Type) (api : ApiClient Server)
    (dentistId : JSString) (e : bool)
    (w : World Server NewAppointmentForm.FormState) :
  exists new,
    completes (NewAppointmentForm.handleSubmit Server api dentistId e) w new /\
    Forall (fun eff =>
              match eff with
              | Api (CreateAppointment apt) _ =>
                  apt_status apt = js "scheduled" /\
                  getStatusBadge (apt_status apt) = (Undefined, Undefined) /\
                  apt_dentistId apt = dentistId /\
                  apt_serviceId apt = NewAppointmentForm.serviceId (ui w) /\
                  Some (apt_date apt) = NewAppointmentForm.date (ui w) /\
                  apt_time apt = NewAppointmentForm.time (ui w)
              | _ => True
              end) new.
Proof.
  unfold NewAppointmentForm.handleSubmit, completes. run_handler.
  destruct e; cbn [ui server log];
    (destruct (NewAppointmentForm.date (ui w)) as [d|];
     [ destruct (NewAppointmentForm.missingField (ui w)) | ];
     cbn [ui server log]; try (finish_run; repeat constructor));
    try (destruct (api_getPatients Server api dentistId (server w)) as [[ps|err] s1];
         cbn [ui server log isResolved]; try (finish_run; repeat constructor));
    try (destruct (find _ ps) as [pt|]; cbn [ui server log];
         [ | match goal with
             | |- context [api_createPatient ?S ?a ?i ?n ?p ?m ?s] =>
                 destruct (api_createPatient S a i n p m s) as [[[pt|]|err] s2]
             end; cbn [ui server log isResolved];
             try (finish_run; repeat constructor) ]);
    try (match goal with
         | |- context [api_createAppointment ?S ?a ?x ?s] =>
             destruct (api_createAppointment S a x s) as [[u|err] s3]
         end; cbn [ui server log isResolved fst]; finish_run;
         repeat constructor).
Qed.

(** X15. [getStatusBadge] knows the four statuses of its tables and no
    other: for any other status the variant and the label are both missing
    ([undefined]), unless the status is the name of a member of
    [Object.prototype]. *)
Theorem getStatusBadge_known_statuses (status : JSString) :
  if existsb (strEq status)
       [js "confirmed"; js "pending"; js "completed"; js "cancelled"]
  then exists v l, getStatusBadge status = (Own v, Own l)
  else if existsb (strEq status) objectPrototypeKeys
       then getStatusBadge status = (Inherited, Inherited)
       else getStatusBadge status = (Undefined, Undefined).
Proof.
  assert (Hsym : forall k, strEq k status = strEq status k).
  { intros k. unfold strEq.
    destruct (list_eq_dec Z.eq_dec k status), (list_eq_dec Z.eq_dec status k);
      congruence. }
  unfold getStatusBadge, badgeVariants, badgeLabels.
  cbn [lookupKey existsb]. rewrite !Hsym.
  destruct (strEq status (js "confirmed")); cbn [orb]; [eauto|].
  destruct (strEq status (js "pending")); cbn [orb]; [eauto|].
  destruct (strEq status (js "completed")); cbn [orb]; [eauto|].
  destruct (strEq status (js "cancelled")); cbn [orb]; [eauto|].
  destruct (existsb (strEq status) objectPrototypeKeys); reflexivity.
Qed.


(** ** AppointmentsPage.tsx: loading *)

(** X17. [loadAppointments] without a dentist does nothing at all (and
    so leaves [isLoading] as it was).  With one it always issues both
    requests, [getAppointments] then [getPatients], and ends with
    [isLoading] false: when both succeed the two lists are replaced by the
    answers; when either fails both lists keep their old content and one
    error notification is shown. *)
Theorem loadAppointments_spec (Server : Type) (api : ApiClient Server)
    (dentist : option Dentist) (w : World Server AppointmentsPage.PageState) :
  match dentist with
  | None => AppointmentsPage.loadAppointments Server api None w = (Normal tt, w)
  | Some d =>
      let '(appts, s1) := api_getAppointments Server api (dentist_id d) (server w) in
      let '(pats, s2) := api_getPatients Server api (dentist_id d) s1 in
      AppointmentsPage.loadAppointments Server api (Some d) w
      = (Normal tt,
         {| ui :=
              AppointmentsPage.setIsLoading false
                match appts, pats with
                | Resolved a, Resolved p =>
                    AppointmentsPage.setPatients p
                      (AppointmentsPage.setAppointments (fun _ => a) (ui w))
                | _, _ => ui w
                end;
            server := s2;
            log :=
              log w
              ++ [Api (GetAppointments (dentist_id d)) (isResolved appts);
                  Api (GetPatients (dentist_id d)) (isResolved pats)]
              ++ (if isResolved appts && isResolved pats
                  then []
                  else [ToastError MsgLoadAppointments]) |})
  end.
Proof.
  destruct dentist as [d|]; [|reflexivity].
  unfold AppointmentsPage.loadAppointments, AppointmentsPage.loadAppointments_start,
    AppointmentsPage.loadAppointments_resume.
  run_handler. cbn [ui server log].
  destruct (api_getAppointments Server api (dentist_id d) (server w)) as [[a|e1] s1];
    cbn [ui server log isResolved];
    destruct (api_getPatients Server api (dentist_id d) s1) as [[ps|e2] s2];
    cbn [ui server log isResolved promiseAll2 andb fst snd];
    rewrite <- ?app_assoc; cbn [app]; rewrite ?app_nil_r; reflexivity.
Qed.

(** ** AppointmentsPage.tsx: the optimistic update and the views *)

Lemma filter_map_same {A : Type} (keep : A -> bool) (f : A -> A) (l : list A) :
  (forall a, keep (f a) = keep a) -> filter keep (map f l) = map f (filter keep l).
Proof.
  intros H. induction l as [|a l IH]; cbn [map filter]; [reflexivity|].
  rewrite H. destruct (keep a); cbn [map]; congruence.
Qed.

Lemma insertSorted_map {A : Type} (cmp : A -> A -> Z) (f : A -> A) (x : A)
    (l : list A) :
  (forall a b, cmp (f a) (f b) = cmp a b) ->
  AppointmentsPage.insertSorted cmp (f x) (map f l)
  = map f (AppointmentsPage.insertSorted cmp x l).
Proof.
  intros H. induction l as [|y l IH]; cbn [map AppointmentsPage.insertSorted];
    [reflexivity|].
  rewrite H. destruct (cmp x y <=? 0); cbn [map]; congruence.
Qed.

Lemma sort_map {A : Type} (cmp : A -> A -> Z) (f : A -> A) (l : list A) :
  (forall a b, cmp (f a) (f b) = cmp a b) ->
  AppointmentsPage.sort cmp (map f l) = map f (AppointmentsPage.sort cmp l).
Proof.
  intros H. induction l as [|x l IH]; cbn [map AppointmentsPage.sort];
    [reflexivity|].
  rewrite IH. now apply insertSorted_map.
Qed.

Lemma applyFilter_changeStatus (LocalTZA : Z)
    (localeCompare : JSString -> JSString -> Z) (now : Date)
    (id newStatus : JSString) (s : AppointmentsPage.PageState) :
  AppointmentsPage.applyFilter LocalTZA localeCompare now
    (AppointmentsPage.setAppointments
       (AppointmentsPage.changeStatus id newStatus) s)
  = AppointmentsPage.changeStatus id newStatus
      (AppointmentsPage.applyFilter LocalTZA localeCompare now s).
Proof.
  rewrite !applyFilter_eq. unfold AppointmentsPage.setAppointments.
  cbn [AppointmentsPage.appointments AppointmentsPage.filter].
  unfold AppointmentsPage.changeStatus.
  rewrite filter_map_same, sort_map; [reflexivity| |].
  - intros a b. unfold AppointmentsPage.compareAppointments.
    destruct (strEq (apt_id a) id), (strEq (apt_id b) id); reflexivity.
  - intros a. unfold AppointmentsPage.keeps.
    destruct (strEq (apt_id a) id); reflexivity.
Qed.

(** With the filter 'all' the clock plays no part in [applyFilter]. *)
Lemma applyFilter_all_any_clock (LocalTZA : Z)
    (localeCompare : JSString -> JSString -> Z) (now now' : Date)
    (s : AppointmentsPage.PageState) :
  AppointmentsPage.filter s = AppointmentsPage.FilterAll ->
  AppointmentsPage.applyFilter LocalTZA localeCompare now' s
  = AppointmentsPage.applyFilter LocalTZA localeCompare now s.
Proof.
  intros H. unfold AppointmentsPage.applyFilter. rewrite H. reflexivity.
Qed.

(** X18. For one reading of the clock, the optimistic update and
    [applyFilter] commute: filtering and sorting the appointments after
    their statuses were rewritten gives the filtered list with the statuses
    rewritten.  So if [filteredAppointments] was what [applyFilter] gives
    at that reading, it still is after the handler has rewritten both
    lists.  With the filter 'all' this holds for any two readings; with the
    other filters an appointment that the clock passes between the two
    runs can make them differ. *)
Theorem applyFilter_after_status_change (LocalTZA : Z)
    (localeCompare : JSString -> JSString -> Z) (now : Date)
    (id newStatus : JSString) (s : AppointmentsPage.PageState) :
  let optimistic := AppointmentsPage.changeStatus id newStatus in
  let s' := AppointmentsPage.setFilteredAppointments optimistic
              (AppointmentsPage.setAppointments optimistic s) in
  AppointmentsPage.applyFilter LocalTZA localeCompare now
    (AppointmentsPage.setAppointments optimistic s)
  = optimistic (AppointmentsPage.applyFilter LocalTZA localeCompare now s) /\
  (AppointmentsPage.filteredAppointments s
   = AppointmentsPage.applyFilter LocalTZA localeCompare now s ->
   AppointmentsPage.filteredAppointments s'
   = AppointmentsPage.applyFilter LocalTZA localeCompare now s') /\
  (AppointmentsPage.filter s = AppointmentsPage.FilterAll ->
   forall earlier,
     AppointmentsPage.filteredAppointments s
     = AppointmentsPage.applyFilter LocalTZA localeCompare earlier s ->
     AppointmentsPage.filteredAppointments s'
     = AppointmentsPage.applyFilter LocalTZA localeCompare now s').
Proof.
  cbv zeta.
  assert (E : forall t,
             AppointmentsPage.applyFilter LocalTZA localeCompare t
               (AppointmentsPage.setFilteredAppointments
                  (AppointmentsPage.changeStatus id newStatus)
                  (AppointmentsPage.setAppointments
                     (AppointmentsPage.changeStatus id newStatus) s))
             = AppointmentsPage.changeStatus id newStatus
                 (AppointmentsPage.applyFilter LocalTZA localeCompare t s)).
  { intros t. rewrite <- applyFilter_changeStatus. reflexivity. }
  split; [apply applyFilter_changeStatus|]. split.
  - intros H. rewrite E.
    cbn [AppointmentsPage.setFilteredAppointments AppointmentsPage.setAppointments
           AppointmentsPage.filteredAppointments].
    now rewrite H.
  - intros HF earlier H. rewrite E.
    cbn [AppointmentsPage.setFilteredAppointments AppointmentsPage.setAppointments
           AppointmentsPage.filteredAppointments].
    rewrite H. f_equal. now apply applyFilter_all_any_clock.
Qed.

(** X19. The list of the calendar view for a selected date holds
    exactly the filtered appointments whose ISO day string is that of the
    selected date (each as often as in the input) and, when
    [localeCompare] is a total preorder, it is sorted by time. *)
Theorem dayAppointments_spec (localeCompare : JSString -> JSString -> Z)
    (selectedDate : Date) (filteredAppointments : list Appointment) :
  (forall a b, localeCompare a b <= 0 \/ localeCompare b a <= 0) ->
  (forall a b c, localeCompare a b <= 0 -> localeCompare b c <= 0 ->
                 localeCompare a c <= 0) ->
  let shown := dayAppointments localeCompare selectedDate filteredAppointments in
  Permutation shown
    (filter (fun apt => strEq (isoDay (apt_date apt)) (isoDay selectedDate))
       filteredAppointments) /\
  Forall (fun apt => isoDay (apt_date apt) = isoDay selectedDate) shown /\
  StronglySorted (fun a b => localeCompare (apt_time a) (apt_time b) <= 0) shown.
Proof.
  intros Htotal Htrans shown. subst shown. unfold dayAppointments.
  assert (E : filter (fun apt => strEq (dateStr (apt_date apt)) (dateStr selectedDate))
                filteredAppointments
              = filter (fun apt => strEq (isoDay (apt_date apt)) (isoDay selectedDate))
                  filteredAppointments).
  { apply filter_ext. intros a. now rewrite !dateStr_isoDay. }
  cbv zeta. rewrite E. split; [apply sort_perm|]. split.
  - apply Forall_forall. intros a Ha.
    apply (Permutation_in _ (sort_perm _ _)) in Ha.
    apply filter_In in Ha. destruct Ha as [_ Ha]. unfold strEq in Ha.
    destruct (list_eq_dec Z.eq_dec (isoDay (apt_date a)) (isoDay selectedDate));
      [assumption|discriminate].
  - apply (sort_sorted (fun a b => localeCompare (apt_time a) (apt_time b))).
    + intros a b. apply Htotal.
    + intros a b c. apply Htrans.
Qed.

Lemma dayAppointments_spec_witness :
  let shown := dayAppointments codeUnitCompare 0 [laterAppointment; sampleAppointment] in
  Permutation shown
    (filter (fun apt => strEq (isoDay (apt_date apt)) (isoDay 0))
       [laterAppointment; sampleAppointment]) /\
  Forall (fun apt => isoDay (apt_date apt) = isoDay 0) shown /\
  StronglySorted (fun a b => codeUnitCompare (apt_time a) (apt_time b) <= 0) shown.
Proof.
  exact (dayAppointments_spec codeUnitCompare 0 [laterAppointment; sampleAppointment]
           codeUnitCompare_total codeUnitCompare_trans).
Defined.

(** X20. The days marked in the calendar: one mark for each filtered
    appointment that is not cancelled, in order, at the local midnight of
    the local day of the appointment; a cancelled appointment marks
    nothing. *)
Theorem hasAppointment_spec (LocalTZA : Z) (filteredAppointments : list Appointment) :
  let kept := filter (fun apt => negb (strEq (apt_status apt) (js "cancelled")))
                filteredAppointments in
  let marks := hasAppointment LocalTZA filteredAppointments in
  List.length marks = List.length kept /\
  Forall (fun apt => apt_status apt <> js "cancelled") kept /\
  forall i apt, nth_error kept i = Some apt ->
    exists mark,
      nth_error marks i = Some mark /\
      localDay LocalTZA mark = localDay LocalTZA (apt_date apt) /\
      TimeWithinDay (LocalTime LocalTZA mark) = 0.
Proof.
  cbv zeta. unfold hasAppointment. split; [apply length_map|]. split.
  - apply Forall_forall. intros a Ha. apply filter_In in Ha.
    destruct Ha as [_ Ha]. unfold strEq in Ha.
    destruct (list_eq_dec Z.eq_dec (apt_status a) (js "cancelled"));
      [discriminate|assumption].
  - intros i apt H. eexists. split; [rewrite nth_error_map, H; reflexivity|].
    rewrite <- (UTC_LocalTime LocalTZA (setHours LocalTZA (apt_date apt) 0 0 0 0)).
    rewrite LocalTime_setHours.
    replace (localDay LocalTZA (apt_date apt) * msPerDay + MakeTime 0 0 0 0)
      with (MakeDate (localDay LocalTZA (apt_date apt)) 0)
      by (unfold MakeDate, MakeTime; lia).
    split.
    + apply localDay_UTC. unfold msPerDay. lia.
    + rewrite LocalTime_UTC. apply Day_MakeDate. unfold msPerDay. lia.
Qed.
